(** * GanttChart.tsx: task store, phase grouping and timeline layout

    A shallow embedding of the logic of [src/components/GanttChart.tsx]:
    the React state of the component is a record, every event handler is a
    function from state to state, and every clock reading ([Date.now()],
    [new Date()]) is an explicit argument of the handler that takes it.

    Conventions of the model
    - a [Date] is its [getTime()] value, an integer number of milliseconds
      (type [Z]); only valid dates are modelled, which is what the date picker
      and [new Date()] produce;
    - a JavaScript [number] that is known to be an integer (a timestamp, a
      number of days) is a [Z]; the results of the divisions that compute
      percentages are values of [number] below, with exact rationals in place
      of binary floating point and with the three non-finite values;
    - the code computes in doubles. Integer arithmetic on timestamps is the
      code's own as long as every intermediate value is an integer of
      magnitude at most [MAX_SAFE_INTEGER], which the difference of two valid
      dates can exceed; a percentage of the code is the rounding of the
      rational of the model. Statements below are about order, bounds and
      values that rounding keeps, and those that need the exact range carry
      [validDate] and [MAX_SAFE_INTEGER] hypotheses;
    - a string is a sequence of code units below 256 ([String.string]). *)

From Stdlib Require Import ZArith QArith Qminmax List String Ascii Bool Lia Permutation.
From Stdlib Require Import DecimalString DecimalZ DecimalPos.
Import ListNotations.

Local Open Scope string_scope.
Local Open Scope list_scope.
Local Open Scope Z_scope.

(** ** JavaScript primitives used by the component *)

Module JS.

(** [number]: finite values are exact rationals. *)
Inductive number : Type :=
| Fin (q : Q)
| PosInf
| NegInf
| NaN.

Definition of_Z (z : Z) : number := Fin (inject_Z z).

(** The sign of a finite value decides the result of the operations that
    leave the finite range. *)
Definition signed_inf (c : comparison) : number :=
  match c with
  | Eq => NaN
  | Gt => PosInf
  | Lt => NegInf
  end.

Definition flip_inf (n : number) : number :=
  match n with
  | PosInf => NegInf
  | NegInf => PosInf
  | other => other
  end.

(** [a / b] *)
Definition div (a b : number) : number :=
  match a, b with
  | NaN, _ | _, NaN => NaN
  | Fin p, Fin q =>
      if Qeq_bool q 0 then signed_inf (p ?= 0)%Q else Fin (p / q)
  | Fin _, (PosInf | NegInf) => Fin 0
  | (PosInf | NegInf), (PosInf | NegInf) => NaN
  | PosInf, Fin q => if Qle_bool 0 q then PosInf else NegInf
  | NegInf, Fin q => if Qle_bool 0 q then NegInf else PosInf
  end.

(** [a * b] *)
Definition mul (a b : number) : number :=
  match a, b with
  | NaN, _ | _, NaN => NaN
  | Fin p, Fin q => Fin (p * q)
  | Fin p, PosInf | PosInf, Fin p => signed_inf (p ?= 0)%Q
  | Fin p, NegInf | NegInf, Fin p => flip_inf (signed_inf (p ?= 0)%Q)
  | PosInf, PosInf | NegInf, NegInf => PosInf
  | PosInf, NegInf | NegInf, PosInf => NegInf
  end.

(** [a + b] *)
Definition add (a b : number) : number :=
  match a, b with
  | NaN, _ | _, NaN => NaN
  | Fin p, Fin q => Fin (p + q)
  | PosInf, NegInf | NegInf, PosInf => NaN
  | PosInf, _ | _, PosInf => PosInf
  | NegInf, _ | _, NegInf => NegInf
  end.

(** [Math.max(a, b)] and [Math.min(a, b)]: [NaN] if either argument is. *)
Definition Math_max (a b : number) : number :=
  match a, b with
  | NaN, _ | _, NaN => NaN
  | PosInf, _ | _, PosInf => PosInf
  | NegInf, x | x, NegInf => x
  | Fin p, Fin q => Fin (Qmax p q)
  end.

Definition Math_min (a b : number) : number :=
  match a, b with
  | NaN, _ | _, NaN => NaN
  | NegInf, _ | _, NegInf => NegInf
  | PosInf, x | x, PosInf => x
  | Fin p, Fin q => Fin (Qmin p q)
  end.

(** [a === b] and [a <= b] on numbers; every comparison with [NaN] is false. *)
Definition eq (a b : number) : Prop :=
  match a, b with
  | Fin p, Fin q => (p == q)%Q
  | PosInf, PosInf | NegInf, NegInf => True
  | _, _ => False
  end.

Definition le (a b : number) : Prop :=
  match a, b with
  | NaN, _ | _, NaN => False
  | NegInf, _ | _, PosInf => True
  | Fin p, Fin q => (p <= q)%Q
  | _, _ => False
  end.

(** [Math.ceil(a / b)] and [Math.floor(a / b)] for integers [a] and [b > 0]. *)
Definition ceil_div (a b : Z) : Z := - ((- a) / b).
Definition floor_div (a b : Z) : Z := a / b.

(** [Math.min(...l)] and [Math.max(...l)] over a list with first element [x]. *)
Definition min_list (x : Z) (l : list Z) : Z := fold_left Z.min l x.
Definition max_list (x : Z) (l : list Z) : Z := fold_left Z.max l x.

(** White space and line terminators among the code units below 256:
    TAB, LF, VT, FF, CR, SP and NBSP. *)
Definition isWhiteSpace (c : ascii) : bool :=
  let n := nat_of_ascii c in
  (Nat.eqb n 9 || Nat.eqb n 10 || Nat.eqb n 11 || Nat.eqb n 12
   || Nat.eqb n 13 || Nat.eqb n 32 || Nat.eqb n 160)%bool.

Fixpoint trimStart (s : string) : string :=
  match s with
  | EmptyString => EmptyString
  | String c s' => if isWhiteSpace c then trimStart s' else s
  end.

Fixpoint trimEnd (s : string) : string :=
  match s with
  | EmptyString => EmptyString
  | String c s' =>
      match trimEnd s' with
      | EmptyString => if isWhiteSpace c then EmptyString else String c EmptyString
      | t => String c t
      end
  end.

(** [s.trim()] *)
Definition trim (s : string) : string := trimEnd (trimStart s).

(** Truthiness of a string: every string but the empty one. *)
Definition truthy (s : string) : bool :=
  match s with
  | EmptyString => false
  | String _ _ => true
  end.

(** [n.toString()] for an integer [n]: its decimal digits, with a leading
    minus sign when negative. *)
Definition toString (n : Z) : string := NilZero.string_of_int (Z.to_int n).

End JS.

(** ** The component *)

(** [interface Task] *)
Record Task : Type := mkTask {
  id : string;
  name : string;
  phase : string;
  startDate : Z;
  endDate : Z;
  predecessor : option string;   (* [None] is [undefined] *)
  duration : Z
}.

(** [const phases]: the [value] of each entry, in the order of the array. *)
Definition phases : list string :=
  ["initiating"; "planning"; "executing"; "monitoring"; "closing"].

(** The object held by [formData]. *)
Record FormData : Type := mkFormData {
  form_name : string;
  form_phase : string;
  form_startDate : Z;
  form_endDate : Z;
  form_predecessor : string
}.

(** [Partial<Task>] as the component fills it: [startEditing] and the inputs
    of the edited row write the keys [name], [startDate], [endDate] and
    [predecessor] and no other; [None] is an absent key. *)
Record EditData : Type := mkEditData {
  edit_name : option string;
  edit_startDate : option Z;
  edit_endDate : option Z;
  edit_predecessor : option string
}.

(** The four [useState] cells. *)
Record State : Type := mkState {
  tasks : list Task;
  formData : FormData;
  editingTask : option string;   (* [None] is [null] *)
  editData : EditData
}.

Definition MS_PER_DAY : Z := 1000 * 60 * 60 * 24.

(** The form as [useState] creates it and as [addTask] resets it; [d1] and
    [d2] are the two [new Date()] readings. *)
Definition blankForm (d1 d2 : Z) : FormData :=
  mkFormData "" "initiating" d1 d2 "".

Definition emptyEdit : EditData := mkEditData None None None None.

Definition initialState (d1 d2 : Z) : State :=
  mkState [] (blankForm d1 d2) None emptyEdit.

Definition calculateDuration (startDate endDate : Z) : Z :=
  let diffTime := Z.abs (endDate - startDate) in
  JS.ceil_div diffTime MS_PER_DAY + 1.

(** [now] is the reading of [Date.now()], [d1] and [d2] those of the two
    [new Date()] of the form reset. *)
Definition addTask (now d1 d2 : Z) (st : State) : State :=
  let f := formData st in
  if negb (JS.truthy (JS.trim (form_name f))) then st
  else
    let newTask :=
      mkTask (JS.toString now)
             (form_name f)
             (form_phase f)
             (form_startDate f)
             (form_endDate f)
             (if JS.truthy (form_predecessor f)
              then Some (form_predecessor f) else None)
             (calculateDuration (form_startDate f) (form_endDate f)) in
    mkState (tasks st ++ [newTask]) (blankForm d1 d2)
            (editingTask st) (editData st).

Definition deleteTask (i : string) (st : State) : State :=
  mkState (filter (fun task => negb (String.eqb (id task) i)) (tasks st))
          (formData st) (editingTask st) (editData st).

(** [task.predecessor || ''] *)
Definition predecessor_or_empty (task : Task) : string :=
  match predecessor task with
  | Some p => p
  | None => ""
  end.

Definition startEditing (task : Task) (st : State) : State :=
  mkState (tasks st) (formData st) (Some (id task))
          (mkEditData (Some (name task)) (Some (startDate task))
                      (Some (endDate task)) (Some (predecessor_or_empty task))).

(** [{...task, ...editData, duration: ...}] *)
Definition mergeEdit (task : Task) (e : EditData) : Task :=
  mkTask (id task)
         (match edit_name e with Some n => n | None => name task end)
         (phase task)
         (match edit_startDate e with Some d => d | None => startDate task end)
         (match edit_endDate e with Some d => d | None => endDate task end)
         (match edit_predecessor e with
          | Some p => Some p
          | None => predecessor task
          end)
         (match edit_startDate e, edit_endDate e with
          | Some s, Some d => calculateDuration s d
          | _, _ => duration task
          end).

(** [!editingTask] holds for [null] and for the empty string. *)
Definition saveEdit (st : State) : State :=
  match editingTask st with
  | None => st
  | Some editing =>
      if negb (JS.truthy editing) then st
      else
        mkState (map (fun task =>
                        if String.eqb (id task) editing
                        then mergeEdit task (editData st)
                        else task)
                     (tasks st))
                (formData st) None emptyEdit
  end.

Definition cancelEdit (st : State) : State :=
  mkState (tasks st) (formData st) None emptyEdit.

(** The [onChange] handlers of the inputs of the edited row. *)
Inductive DraftChange : Type :=
| ChangeName (v : string)
| ChangeStartDate (date : option Z)    (* [None] is the picker's [null] *)
| ChangeEndDate (date : option Z)
| ChangePredecessor (v : string).

Definition changeDraft (c : DraftChange) (st : State) : State :=
  let e := editData st in
  let e' :=
    match c with
    | ChangeName v =>
        mkEditData (Some v) (edit_startDate e) (edit_endDate e) (edit_predecessor e)
    | ChangeStartDate (Some d) =>
        mkEditData (edit_name e) (Some d) (edit_endDate e) (edit_predecessor e)
    | ChangeEndDate (Some d) =>
        mkEditData (edit_name e) (edit_startDate e) (Some d) (edit_predecessor e)
    | ChangePredecessor v =>
        mkEditData (edit_name e) (edit_startDate e) (edit_endDate e) (Some v)
    | ChangeStartDate None | ChangeEndDate None => e
    end in
  mkState (tasks st) (formData st) (editingTask st) e'.

(** The [onChange] handlers of the inputs of the form. *)
Inductive FormChange : Type :=
| FormName (v : string)
| FormPhase (v : string)
| FormStartDate (date : option Z)
| FormEndDate (date : option Z)
| FormPredecessor (v : string).

Definition changeForm (c : FormChange) (st : State) : State :=
  let f := formData st in
  let f' :=
    match c with
    | FormName v =>
        mkFormData v (form_phase f) (form_startDate f) (form_endDate f)
                   (form_predecessor f)
    | FormPhase v =>
        mkFormData (form_name f) v (form_startDate f) (form_endDate f)
                   (form_predecessor f)
    | FormStartDate (Some d) =>
        mkFormData (form_name f) (form_phase f) d (form_endDate f)
                   (form_predecessor f)
    | FormEndDate (Some d) =>
        mkFormData (form_name f) (form_phase f) (form_startDate f) d
                   (form_predecessor f)
    | FormPredecessor v =>
        mkFormData (form_name f) (form_phase f) (form_startDate f)
                   (form_endDate f) v
    | FormStartDate None | FormEndDate None => f
    end in
  mkState (tasks st) f' (editingTask st) (editData st).

(** [getTasksByPhase]: the object it builds, as the list of its entries in
    the order the keys were written. *)
Definition getTasksByPhase (ts : list Task) : list (string * list Task) :=
  map (fun p => (p, filter (fun task => String.eqb (phase task) p) ts)) phases.

Record Timeline : Type := mkTimeline {
  tl_startDate : Z;
  tl_endDate : Z;
  totalDays : Z
}.

(** [d1] and [d2] are the two [new Date()] readings of the empty case. In the
    other case [dates] starts with the two dates of the first task. *)
Definition getTimelineData (d1 d2 : Z) (ts : list Task) : Timeline :=
  match ts with
  | [] => mkTimeline d1 d2 1
  | first :: rest =>
      let dates :=
        endDate first :: flat_map (fun task => [startDate task; endDate task]) rest in
      let minDate := JS.min_list (startDate first) dates in
      let maxDate := JS.max_list (startDate first) dates in
      mkTimeline minDate maxDate
                 (JS.ceil_div (maxDate - minDate) MS_PER_DAY + 1)
  end.

Record Position : Type := mkPosition {
  pos_left : JS.number;     (* [left] *)
  pos_width : JS.number     (* [width] *)
}.

Definition getTaskPosition (task : Task) (timelineStart totalDays : Z)
  : Position :=
  let taskStart := JS.floor_div (startDate task - timelineStart) MS_PER_DAY in
  mkPosition
    (JS.mul (JS.div (JS.of_Z taskStart) (JS.of_Z totalDays)) (JS.of_Z 100))
    (JS.mul (JS.div (JS.of_Z (duration task)) (JS.of_Z totalDays)) (JS.of_Z 100)).

(** [today] is the reading of [new Date()]. *)
Definition getProgressPercentage (today : Z) (task : Task) : JS.number :=
  if today <? startDate task then JS.of_Z 0
  else if today >? endDate task then JS.of_Z 100
  else
    let totalDuration := endDate task - startDate task in
    let elapsed := today - startDate task in
    JS.Math_min (JS.of_Z 100)
      (JS.Math_max (JS.of_Z 0)
         (JS.mul (JS.div (JS.of_Z elapsed) (JS.of_Z totalDuration))
                 (JS.of_Z 100))).

(** ** Traces of events

    One event per call of a handler, with the arguments of the call and the
    clock readings it takes. *)
Inductive Event : Type :=
| OnChangeForm (c : FormChange)
| OnAddTask (now d1 d2 : Z)
| OnDeleteTask (i : string)
| OnStartEditing (task : Task)
| OnChangeDraft (c : DraftChange)
| OnSaveEdit
| OnCancelEdit.

Definition handle (e : Event) (st : State) : State :=
  match e with
  | OnChangeForm c => changeForm c st
  | OnAddTask now d1 d2 => addTask now d1 d2 st
  | OnDeleteTask i => deleteTask i st
  | OnStartEditing task => startEditing task st
  | OnChangeDraft c => changeDraft c st
  | OnSaveEdit => saveEdit st
  | OnCancelEdit => cancelEdit st
  end.

Definition run (evs : list Event) (st : State) : State :=
  fold_left (fun s e => handle e s) evs st.

(** The [Date.now()] readings of the calls of [addTask] that add a task, in
    the order of the calls. *)
Fixpoint stamps (evs : list Event) (st : State) : list Z :=
  match evs with
  | [] => []
  | e :: rest =>
      match e with
      | OnAddTask now _ _ =>
          if JS.truthy (JS.trim (form_name (formData st))) then [now] else []
      | _ => []
      end ++ stamps rest (handle e st)
  end.

(** The ids given to tasks along a trace. *)
Definition issuedIds (evs : list Event) (st : State) : list string :=
  map JS.toString (stamps evs st).

(** Local midnight of the [n]-th day after the epoch, in a zone whose
    midnight is [off] milliseconds after midnight UTC. One [off] serves for
    dates between which the zone does not change its offset from UTC. *)
Definition midnight (off n : Z) : Z := n * MS_PER_DAY + off.

(** A date that is a whole number of days away from the instant [off]: two
    dates normalized at one [off] are a whole number of days apart. The
    local midnights of a zone are so as long as the zone keeps one offset
    from UTC, not across a daylight-saving change. *)
Definition dayNormalized (off d : Z) : Prop := (d - off) mod MS_PER_DAY = 0.

(** Every character of [s] is white space. *)
Fixpoint whitespaceOnly (s : string) : bool :=
  match s with
  | EmptyString => true
  | String c s' => JS.isWhiteSpace c && whitespaceOnly s'
  end.

(** The cached [duration] of a task is the one its dates give. *)
Definition durationCached (t : Task) : Prop :=
  duration t = calculateDuration (startDate t) (endDate t).

(** The user fills in the name and the two dates of the form and clicks
    the add button. *)
Definition submit (nm : string) (s e : Z) (now d1 d2 : Z) (st : State) : State :=
  addTask now d1 d2
    (changeForm (FormEndDate (Some e))
       (changeForm (FormStartDate (Some s))
          (changeForm (FormName nm) st))).

(** ** Scenarios and invariants *)

(** 2024-01-01 is day 19723 of the epoch. *)
Definition jan2024 (off day : Z) : Z := midnight off (19722 + day).

(** A (2024-01-01 to 2024-01-05), then B (2024-01-03 to 2024-01-10), entered
    in a zone of offset [off]; the other arguments are the clock readings of
    the session. *)
Definition twoTasks (off c0 c1 nowA c2 c3 nowB c4 c5 : Z) : State :=
  submit "B" (jan2024 off 3) (jan2024 off 10) nowB c4 c5
    (submit "A" (jan2024 off 1) (jan2024 off 5) nowA c2 c3
       (initialState c0 c1)).

Definition taskA (off nowA : Z) : Task :=
  mkTask (JS.toString nowA) "A" "initiating" (jan2024 off 1) (jan2024 off 5)
         None 5.

Definition taskB (off nowB : Z) : Task :=
  mkTask (JS.toString nowB) "B" "initiating" (jan2024 off 3) (jan2024 off 10)
         None 8.

(** A task entered with its end five days before its start. *)
Definition reversedTask : Task :=
  mkTask "1000" "R" "initiating" (midnight 0 5) (midnight 0 0) None 6.

(** The same task entered through the page: the form opens with both dates
    at day 0, the user types the name and moves the start date alone, which
    its picker does not bound by the end date, and clicks the add button. *)
Definition startPickerOnly : list Event :=
  [OnChangeForm (FormName "R");
   OnChangeForm (FormStartDate (Some (midnight 0 5)));
   OnAddTask 1000 0 0].

(** [Number.MAX_SAFE_INTEGER], 2^53 - 1: integers up to it, and their sums,
    differences and products up to it, are exact in doubles. *)
Definition MAX_SAFE_INTEGER : Z := 9007199254740991.

(** The time values of valid [Date]s: at most 8.64e15 ms from the epoch. *)
Definition validDate (d : Z) : Prop :=
  - 8640000000000000 <= d <= 8640000000000000.

(** A run of changes to the draft of the edited row. *)
Definition changeDrafts (changes : list DraftChange) (st : State) : State :=
  fold_left (fun s c => changeDraft c s) changes st.

(** What every trace from the initial state maintains: durations are the
    ones the dates give, ids are not the empty string, and a draft that
    belongs to an edit holds both dates. *)
Record wellFormed (st : State) : Prop := mkWellFormed {
  wf_durations : Forall durationCached (tasks st);
  wf_ids : Forall (fun t => JS.truthy (id t) = true) (tasks st);
  wf_draft : editingTask st <> None ->
             edit_startDate (editData st) <> None /\
             edit_endDate (editData st) <> None
}.

(** A change to the draft that touches the predecessor and nothing else. *)
Definition onlyPredecessor (c : DraftChange) : Prop :=
  match c with
  | ChangePredecessor _ => True
  | _ => False
  end.

(** ** Rendering *)

(** [const phases] again, each [value] with its [label]. *)
Definition phaseLabels : list (string * string) :=
  [("initiating", "Initiating"); ("planning", "Planning");
   ("executing", "Executing"); ("monitoring", "Monitoring");
   ("closing", "Closing")].

(** [const phaseColors]: the entries of the object, in the order written. *)
Definition phaseColors : list (string * string) :=
  [("initiating", "bg-blue-500"); ("planning", "bg-green-500");
   ("executing", "bg-yellow-500"); ("monitoring", "bg-purple-500");
   ("closing", "bg-red-500")].

(** [o[k]] for a key the object was given by assignment; [None] is
    [undefined]. *)
Fixpoint getProperty {A : Type} (o : list (string * A)) (k : string) : option A :=
  match o with
  | [] => None
  | (k', v) :: o' => if String.eqb k' k then Some v else getProperty o' k
  end.

(** A row of the table: the task, and on the first row of a phase the cell
    of the phase with its label and its [rowSpan]. *)
Record Row : Type := mkRow {
  row_phase : option (string * nat);
  row_task : Task
}.

(** [phaseTasks.map((task, taskIndex) => ...)], from index [taskIndex] on;
    [n] is [phaseTasks.length]. *)
Fixpoint phaseRows (label : string) (n taskIndex : nat) (phaseTasks : list Task)
  : list Row :=
  match phaseTasks with
  | [] => []
  | task :: rest =>
      mkRow (if Nat.eqb taskIndex 0 then Some (label, n) else None) task
      :: phaseRows label n (S taskIndex) rest
  end.

(** The body of the table, [phases.map((phase, phaseIndex) => ...)] with the
    rows of the phases put end to end as they are displayed. [None] is the
    [TypeError] of reading [length] of [undefined]. *)
Fixpoint tableBody (tasksByPhase : list (string * list Task))
         (ps : list (string * string)) : option (list Row) :=
  match ps with
  | [] => Some []
  | (value, label) :: ps' =>
      match getProperty tasksByPhase value with
      | None => None
      | Some phaseTasks =>
          let rows :=
            if Nat.eqb (List.length phaseTasks) 0 then []
            else phaseRows label (List.length phaseTasks) 0 phaseTasks in
          match tableBody tasksByPhase ps' with
          | None => None
          | Some more => Some (rows ++ more)
          end
      end
  end.

Definition tableRows (ts : list Task) : option (list Row) :=
  tableBody (getTasksByPhase ts) phaseLabels.

(** The end of the timeline as the footer of the chart computes it:
    [timelineStart.getTime() + (totalDays - 1) * 24 * 60 * 60 * 1000]. *)
Definition footerEnd (timelineStart totalDays : Z) : Z :=
  timelineStart + (totalDays - 1) * 24 * 60 * 60 * 1000.

(** The test of the [filter] of [getTasksByPhase] for the phase [p]. *)
Definition inPhase (p : string) (task : Task) : bool :=
  String.eqb (phase task) p.

(** The task that [addTask] builds from the form [f] at the reading [now]. *)
Definition newTaskOf (now : Z) (f : FormData) : Task :=
  mkTask (JS.toString now) (form_name f) (form_phase f)
         (form_startDate f) (form_endDate f)
         (if JS.truthy (form_predecessor f)
          then Some (form_predecessor f) else None)
         (calculateDuration (form_startDate f) (form_endDate f)).

(** An event the page can produce as far as phases go: the phase of the form
    is chosen in a [select] whose options are the five phases. *)
Definition fromSelect (e : Event) : Prop :=
  match e with
  | OnChangeForm (FormPhase v) => In v phases
  | _ => True
  end.

(** The sum of the [rowSpan]s of the phase cells of a list of rows. *)
Fixpoint rowSpans (rows : list Row) : nat :=
  match rows with
  | [] => 0%nat
  | r :: rest =>
      (match row_phase r with Some (_, n) => n | None => 0 end
       + rowSpans rest)%nat
  end.

(** ** Day arithmetic *)

Section DayArithmetic.

Lemma MS_PER_DAY_pos : 0 < MS_PER_DAY.
Proof. reflexivity. Qed.

Lemma ceil_div_days (k : Z) : JS.ceil_div (k * MS_PER_DAY) MS_PER_DAY = k.
Proof.
  unfold JS.ceil_div.
  rewrite <- Z.mul_opp_l, Z.div_mul by discriminate.
  lia.
Qed.

Lemma floor_div_days (k : Z) : JS.floor_div (k * MS_PER_DAY) MS_PER_DAY = k.
Proof. unfold JS.floor_div. now rewrite Z.div_mul. Qed.

Lemma ceil_div_nonneg (a : Z) : 0 <= a -> 0 <= JS.ceil_div a MS_PER_DAY.
Proof.
  intros Ha. unfold JS.ceil_div.
  assert (H : (- a) / MS_PER_DAY <= 0).
  { apply Z.div_le_upper_bound; [apply MS_PER_DAY_pos | lia]. }
  lia.
Qed.

(** [floor(a / D) + ceil(b / D) <= ceil(c / D)] as soon as [a + b <= c]. *)
Lemma floor_plus_ceil_le (a b c : Z) :
  a + b <= c ->
  JS.floor_div a MS_PER_DAY + JS.ceil_div b MS_PER_DAY
  <= JS.ceil_div c MS_PER_DAY.
Proof.
  intros Habc. unfold JS.floor_div, JS.ceil_div.
  pose proof (Z.div_mod a MS_PER_DAY ltac:(discriminate)) as Ea.
  pose proof (Z.mod_pos_bound a MS_PER_DAY MS_PER_DAY_pos) as Ba.
  pose proof (Z.div_mod (- b) MS_PER_DAY ltac:(discriminate)) as Eb.
  pose proof (Z.mod_pos_bound (- b) MS_PER_DAY MS_PER_DAY_pos) as Bb.
  pose proof (Z.div_mod (- c) MS_PER_DAY ltac:(discriminate)) as Ec.
  pose proof (Z.mod_pos_bound (- c) MS_PER_DAY MS_PER_DAY_pos) as Bc.
  change MS_PER_DAY with 86400000 in *.
  lia.
Qed.

Lemma calculateDuration_pos (s e : Z) : 1 <= calculateDuration s e.
Proof.
  unfold calculateDuration.
  pose proof (ceil_div_nonneg (Z.abs (e - s)) (Z.abs_nonneg _)). lia.
Qed.

Lemma calculateDuration_forward (s e : Z) :
  s <= e -> calculateDuration s e = JS.ceil_div (e - s) MS_PER_DAY + 1.
Proof. intros H. unfold calculateDuration. now rewrite Z.abs_eq by lia. Qed.

End DayArithmetic.

(** ** Smallest and largest date *)

Section Extremes.

Lemma min_list_le_init (l : list Z) (x : Z) : JS.min_list x l <= x.
Proof.
  unfold JS.min_list. revert x.
  induction l as [|y l IH]; intros x; simpl; [lia|].
  specialize (IH (Z.min x y)). lia.
Qed.

Lemma min_list_le (l : list Z) (x y : Z) : In y l -> JS.min_list x l <= y.
Proof.
  unfold JS.min_list. revert x.
  induction l as [|z l IH]; intros x Hin; simpl in *; [easy|].
  destruct Hin as [->|Hin].
  - pose proof (min_list_le_init l (Z.min x y)) as H.
    unfold JS.min_list in H. lia.
  - now apply IH.
Qed.

Lemma max_list_ge_init (l : list Z) (x : Z) : x <= JS.max_list x l.
Proof.
  unfold JS.max_list. revert x.
  induction l as [|y l IH]; intros x; simpl; [lia|].
  specialize (IH (Z.max x y)). lia.
Qed.

Lemma max_list_ge (l : list Z) (x y : Z) : In y l -> y <= JS.max_list x l.
Proof.
  unfold JS.max_list. revert x.
  induction l as [|z l IH]; intros x Hin; simpl in *; [easy|].
  destruct Hin as [->|Hin].
  - pose proof (max_list_ge_init l (Z.max x y)) as H.
    unfold JS.max_list in H. lia.
  - now apply IH.
Qed.

(** The axis of a non-empty list of tasks starts no later than any date of
    any task and ends no earlier. *)
Lemma timeline_bounds (d1 d2 : Z) (ts : list Task) (t : Task) :
  In t ts ->
  let tl := getTimelineData d1 d2 ts in
  tl_startDate tl <= startDate t /\ tl_startDate tl <= endDate t /\
  startDate t <= tl_endDate tl /\ endDate t <= tl_endDate tl /\
  totalDays tl = JS.ceil_div (tl_endDate tl - tl_startDate tl) MS_PER_DAY + 1.
Proof.
  destruct ts as [|first rest]; [easy|].
  intros Hin. cbn [getTimelineData tl_startDate tl_endDate totalDays].
  set (dates := endDate first :: _).
  assert (He : In (endDate t) dates).
  { destruct Hin as [->|Hin]; [now left|].
    subst dates. right. apply in_flat_map. exists t. simpl; auto. }
  assert (Hs : startDate t = startDate first \/ In (startDate t) dates).
  { destruct Hin as [->|Hin]; [now left|].
    right. subst dates. right. apply in_flat_map. exists t. simpl; auto. }
  repeat split.
  - destruct Hs as [->|Hs]; [apply min_list_le_init | now apply min_list_le].
  - now apply min_list_le.
  - destruct Hs as [->|Hs]; [apply max_list_ge_init | now apply max_list_ge].
  - now apply max_list_ge.
Qed.

End Extremes.

(** ** The timeline of the empty chart *)

(** C7. [getTimelineData] on the empty list of tasks returns the two current
    dates it reads as start and end, which are one date when the clock does
    not tick in between, and [totalDays = 1]; and whatever the tasks are,
    [totalDays] is at least 1, hence never 0. *)
Theorem getTimelineData_empty :
  (forall d1 d2 : Z, getTimelineData d1 d2 [] = mkTimeline d1 d2 1) /\
  (forall currentDate : Z,
      getTimelineData currentDate currentDate []
      = mkTimeline currentDate currentDate 1) /\
  (forall (d1 d2 : Z) (ts : list Task),
      1 <= totalDays (getTimelineData d1 d2 ts) /\
      totalDays (getTimelineData d1 d2 ts) <> 0).
Proof.
  split; [reflexivity|]. split; [reflexivity|].
  intros d1 d2 ts.
  assert (H : 1 <= totalDays (getTimelineData d1 d2 ts)); [|split; lia].
  destruct ts as [|first rest]; [cbn; lia|].
  destruct (timeline_bounds d1 d2 (first :: rest) first (or_introl eq_refl))
    as (Hlo & _ & Hhi & _ & ->).
  set (tl := getTimelineData d1 d2 (first :: rest)) in *.
  pose proof (ceil_div_nonneg (tl_endDate tl - tl_startDate tl)). lia.
Qed.

(** ** The two-task scenario *)

Section Scenario.

(** The zone offset and the clock readings of the session. *)
Variables (off : Z) (c0 c1 nowA c2 c3 nowB c4 c5 t0 t1 : Z).

Lemma jan2024_span (a b : Z) :
  jan2024 off b - jan2024 off a = (b - a) * MS_PER_DAY.
Proof. unfold jan2024, midnight. ring. Qed.

Lemma jan2024_mono (a b : Z) : a <= b -> jan2024 off a <= jan2024 off b.
Proof.
  intros H. pose proof (jan2024_span a b). pose proof MS_PER_DAY_pos. nia.
Qed.

Lemma jan2024_duration (a b : Z) :
  a <= b -> calculateDuration (jan2024 off a) (jan2024 off b) = b - a + 1.
Proof.
  intros H. rewrite calculateDuration_forward by now apply jan2024_mono.
  now rewrite jan2024_span, ceil_div_days.
Qed.

Lemma twoTasks_tasks :
  tasks (twoTasks off c0 c1 nowA c2 c3 nowB c4 c5)
  = [taskA off nowA; taskB off nowB].
Proof.
  unfold twoTasks, submit, taskA, taskB.
  cbv -[calculateDuration jan2024 JS.toString].
  now rewrite !jan2024_duration by lia.
Qed.

Lemma twoTasks_axis :
  getTimelineData t0 t1 (tasks (twoTasks off c0 c1 nowA c2 c3 nowB c4 c5))
  = mkTimeline (jan2024 off 1) (jan2024 off 10) 10.
Proof.
  rewrite twoTasks_tasks.
  pose proof (jan2024_mono 1 5 ltac:(lia)). pose proof (jan2024_mono 1 3 ltac:(lia)).
  pose proof (jan2024_mono 1 10 ltac:(lia)). pose proof (jan2024_mono 5 10 ltac:(lia)).
  pose proof (jan2024_mono 3 10 ltac:(lia)).
  unfold getTimelineData, JS.min_list, JS.max_list.
  cbn [taskA taskB startDate endDate flat_map app fold_left].
  replace (Z.min (Z.min (Z.min (jan2024 off 1) (jan2024 off 5)) (jan2024 off 3))
                 (jan2024 off 10))
    with (jan2024 off 1) by lia.
  replace (Z.max (Z.max (Z.max (jan2024 off 1) (jan2024 off 5)) (jan2024 off 3))
                 (jan2024 off 10))
    with (jan2024 off 10) by lia.
  now rewrite jan2024_span, ceil_div_days.
Qed.

End Scenario.

(** C1. Tasks A (2024-01-01 to 2024-01-05) and B (2024-01-03 to 2024-01-10),
    entered at local midnight in any zone and at any clock readings: the axis
    runs from 2024-01-01 to 2024-01-10 with [totalDays = 10]; the durations
    are 5 and 8; A is at left 0, width 50 and B at left 20, width 80. *)
Theorem scenario_two_tasks (off c0 c1 nowA c2 c3 nowB c4 c5 t0 t1 : Z) :
  let st := twoTasks off c0 c1 nowA c2 c3 nowB c4 c5 in
  let tl := getTimelineData t0 t1 (tasks st) in
  let A := taskA off nowA in
  let B := taskB off nowB in
  let posA := getTaskPosition A (tl_startDate tl) (totalDays tl) in
  let posB := getTaskPosition B (tl_startDate tl) (totalDays tl) in
  tasks st = [A; B] /\
  tl_startDate tl = midnight off 19723 /\
  tl_endDate tl = midnight off 19732 /\
  totalDays tl = 10 /\
  map duration (tasks st) = [5; 8] /\
  JS.eq (pos_left posA) (JS.of_Z 0) /\ JS.eq (pos_width posA) (JS.of_Z 50) /\
  JS.eq (pos_left posB) (JS.of_Z 20) /\ JS.eq (pos_width posB) (JS.of_Z 80).
Proof.
  intros st tl A B posA posB.
  assert (Htl : tl = mkTimeline (jan2024 off 1) (jan2024 off 10) 10)
    by apply twoTasks_axis.
  subst posA posB. rewrite Htl. cbn [tl_startDate tl_endDate totalDays].
  split; [apply twoTasks_tasks|].
  do 3 (split; [reflexivity|]).
  split; [subst st; now rewrite twoTasks_tasks|].
  unfold getTaskPosition. cbn [pos_left pos_width A B taskA taskB startDate duration].
  rewrite !jan2024_span, !floor_div_days.
  repeat split; vm_compute; reflexivity.
Qed.

(** ** Percentages *)

Section Percentages.

(** [x / T * 100] for integers [x] and [T <> 0] is finite. *)
Lemma percent_finite (x T : Z) :
  T <> 0 ->
  JS.mul (JS.div (JS.of_Z x) (JS.of_Z T)) (JS.of_Z 100)
  = JS.Fin (inject_Z x / inject_Z T * inject_Z 100).
Proof.
  intros HT. unfold JS.div, JS.of_Z.
  destruct (Qeq_bool (inject_Z T) 0) eqn:E; [|reflexivity].
  apply Qeq_bool_eq in E. unfold Qeq in E. simpl in E. lia.
Qed.

(** In whole days: a task that does not end before it starts and whose
    cached duration is the one its dates give starts and lasts inside the
    axis of any list that contains it. *)
Lemma days_fit (d1 d2 : Z) (ts : list Task) (t : Task) :
  In t ts -> durationCached t -> startDate t <= endDate t ->
  let tl := getTimelineData d1 d2 ts in
  JS.floor_div (startDate t - tl_startDate tl) MS_PER_DAY + duration t
  <= totalDays tl.
Proof.
  intros Hin Hdur Hord tl.
  destruct (timeline_bounds d1 d2 ts t Hin) as (Hlo & _ & _ & Hhi & Htot).
  fold tl in Hlo, Hhi, Htot.
  rewrite Hdur, calculateDuration_forward, Htot by assumption.
  pose proof (floor_plus_ceil_le (startDate t - tl_startDate tl)
                (endDate t - startDate t)
                (tl_endDate tl - tl_startDate tl) ltac:(lia)).
  lia.
Qed.

End Percentages.

(** C2, at an input where the code departs from it. The form opens with
    both dates at day 0 and the user moves only the start date, to day 5:
    the end picker is held to [minDate = startDate], the start picker is held
    to nothing, so [addTask] stores a task that ends before it starts. Its
    dates are day-normalized and its duration is the derived one, 6 days; on
    the axis of 6 days [getTaskPosition] puts it at left 500/6 with width
    100, and left + width is above 183, far from 100 whatever the
    rounding. *)
Theorem reversed_task_overflows :
  let st := run startPickerOnly (initialState 0 0) in
  let tl := getTimelineData 0 0 (tasks st) in
  let pos := getTaskPosition reversedTask (tl_startDate tl) (totalDays tl) in
  tasks st = [reversedTask] /\
  dayNormalized 0 (startDate reversedTask) /\
  dayNormalized 0 (endDate reversedTask) /\
  endDate reversedTask < startDate reversedTask /\
  durationCached reversedTask /\
  totalDays tl = 6 /\
  JS.eq (pos_width pos) (JS.of_Z 100) /\
  JS.le (JS.of_Z 183) (JS.add (pos_left pos) (pos_width pos)) /\
  ~ JS.le (JS.add (pos_left pos) (pos_width pos)) (JS.of_Z 100).
Proof.
  cbv zeta.
  split; [reflexivity|]. split; [reflexivity|]. split; [reflexivity|].
  split; [reflexivity|]. split; [reflexivity|]. split; [reflexivity|].
  split; [reflexivity|]. split.
  - vm_compute. discriminate.
  - vm_compute. intros H. apply H. reflexivity.
Qed.

(** ** Progress of a task of zero length *)

Lemma progress_after_end (today : Z) (t : Task) :
  startDate t <= today -> endDate t < today ->
  getProgressPercentage today t = JS.of_Z 100.
Proof.
  intros Hs He. unfold getProgressPercentage.
  destruct (Z.ltb_spec today (startDate t)); [lia|].
  destruct (Z.gtb_spec today (endDate t)); [reflexivity | lia].
Qed.

(** C3, at the input where the code departs from it. For a task that starts
    and ends at the instant [d], the progress read at [d] itself is [NaN]:
    neither early return fires and [0 / 0] is evaluated. *)
Theorem progress_zero_span_at_start
  (i n p : string) (d : Z) (pr : option string) (du : Z) :
  getProgressPercentage d (mkTask i n p d d pr du) = JS.NaN.
Proof.
  unfold getProgressPercentage. cbn [startDate endDate].
  rewrite Z.ltb_irrefl.
  destruct (Z.gtb_spec d d); [lia|].
  now rewrite Z.sub_diag.
Qed.

(** ** Adding a task with a blank name *)

Lemma trimStart_whitespaceOnly (s : string) :
  whitespaceOnly s = true -> JS.trimStart s = "".
Proof.
  induction s as [|c s IH]; simpl; [reflexivity|].
  intros H. apply andb_true_iff in H as [Hc Hs]. rewrite Hc. now apply IH.
Qed.

Lemma trim_whitespaceOnly (s : string) :
  whitespaceOnly s = true <-> JS.trim s = "".
Proof.
  unfold JS.trim. split.
  - intros H. now rewrite trimStart_whitespaceOnly.
  - induction s as [|c s IH]; simpl; [reflexivity|].
    destruct (JS.isWhiteSpace c) eqn:Hc; [exact IH|].
    simpl. destruct (JS.trimEnd s); [rewrite Hc|]; discriminate.
Qed.

(** C6. When the name of the form is empty or made of white space only,
    [addTask] returns the state it was given: the tasks are the same list,
    of the same length, and nothing else changes either. *)
Theorem addTask_blank_name (now d1 d2 : Z) (st : State) :
  whitespaceOnly (form_name (formData st)) = true ->
  addTask now d1 d2 st = st /\
  tasks (addTask now d1 d2 st) = tasks st /\
  List.length (tasks (addTask now d1 d2 st)) = List.length (tasks st).
Proof.
  intros H. apply trim_whitespaceOnly in H.
  assert (E : addTask now d1 d2 st = st).
  { unfold addTask. now rewrite H. }
  now rewrite E.
Qed.

Lemma addTask_blank_name_witness :
  let st := changeForm (FormName "   ") (twoTasks 0 0 0 1 0 0 2 0 0) in
  addTask 3 0 0 st = st /\
  tasks (addTask 3 0 0 st) = tasks st /\
  List.length (tasks (addTask 3 0 0 st)) = List.length (tasks st).
Proof.
  intros st. apply (addTask_blank_name 3 0 0 st). reflexivity.
Defined.

(** ** Editing *)

Lemma changeDrafts_frame (changes : list DraftChange) (st : State) :
  tasks (changeDrafts changes st) = tasks st /\
  formData (changeDrafts changes st) = formData st /\
  editingTask (changeDrafts changes st) = editingTask st.
Proof.
  unfold changeDrafts. revert st.
  induction changes as [|c changes IH]; intros st; simpl; [easy|].
  destruct (IH (changeDraft c st)) as (-> & -> & ->). easy.
Qed.

(** C8. [startEditing] on any task, any changes to the draft, then
    [cancelEdit]: the list of tasks is the one before the edit began, so
    every task, the edited one included, is the same record at the same
    place; the form is untouched and no draft is left. *)
Theorem edit_then_cancel (st : State) (t : Task) (changes : list DraftChange) :
  let st' := cancelEdit (changeDrafts changes (startEditing t st)) in
  tasks st' = tasks st /\
  (forall i : nat, nth_error (tasks st') i = nth_error (tasks st) i) /\
  tasks (cancelEdit (startEditing t st)) = tasks st /\
  formData st' = formData st /\
  editingTask st' = None /\ editData st' = emptyEdit.
Proof.
  intros st'. subst st'. cbn [cancelEdit tasks formData editingTask editData].
  destruct (changeDrafts_frame changes (startEditing t st)) as (-> & -> & _).
  cbn. repeat split; reflexivity.
Qed.

Lemma map_unless_absent (editing : string) (f : Task -> Task) (l : list Task) :
  (forall task, In task l -> id task <> editing) ->
  map (fun task => if String.eqb (id task) editing then f task else task) l = l.
Proof.
  induction l as [|x l IH]; intros H; simpl; [reflexivity|].
  destruct (String.eqb_spec (id x) editing) as [E|_].
  - exfalso. apply (H x); [now left | assumption].
  - f_equal. apply IH. intros task Hin. apply H. now right.
Qed.

(** C9. The draft is active for the id [t], which [saveEdit] takes to mean
    that [editingTask] is [t] and [t] is not the empty string. After
    [deleteTask t], [saveEdit] leaves the list of tasks as the deletion left
    it, which is the old list without the tasks of id [t], and clears the
    draft. *)
Theorem save_after_delete (st : State) (t : string) :
  editingTask st = Some t -> JS.truthy t = true ->
  let st1 := deleteTask t st in
  let st2 := saveEdit st1 in
  tasks st2 = tasks st1 /\
  tasks st2 = filter (fun task => negb (String.eqb (id task) t)) (tasks st) /\
  (forall task, In task (tasks st2) -> id task <> t) /\
  formData st2 = formData st /\
  editingTask st2 = None /\ editData st2 = emptyEdit.
Proof.
  intros Hed Ht st1 st2.
  assert (Habs : forall task, In task (tasks st1) -> id task <> t).
  { intros task Hin. cbn in Hin. apply filter_In in Hin as [_ Hne].
    destruct (String.eqb_spec (id task) t); [discriminate | assumption]. }
  assert (E : st2 = mkState (tasks st1) (formData st) None emptyEdit).
  { subst st2. unfold saveEdit.
    replace (editingTask st1) with (Some t) by (symmetry; exact Hed).
    rewrite Ht. cbn [negb]. f_equal.
    now apply map_unless_absent. }
  rewrite E. cbn [tasks formData editingTask editData].
  repeat split; try reflexivity. exact Habs.
Qed.

Lemma save_after_delete_witness :
  let st := startEditing (taskA 0 1) (twoTasks 0 0 0 1 0 0 2 0 0) in
  tasks (saveEdit (deleteTask "1" st)) = [taskB 0 2] /\
  editingTask (saveEdit (deleteTask "1" st)) = None.
Proof.
  intros st.
  destruct (save_after_delete st "1" eq_refl eq_refl)
    as (_ & E & _ & _ & Hed & _).
  split; [rewrite E; reflexivity | exact Hed].
Defined.

(** ** Grouping by phase *)

Section Grouping.

(** The five keys are pairwise distinct. *)
Lemma phases_NoDup : NoDup phases.
Proof.
  unfold phases. repeat constructor; simpl; intuition discriminate.
Qed.

Lemma filter_split_perm {A : Type} (p q : A -> bool) (l : list A) :
  (forall x, In x l -> p x = true -> q x = false) ->
  Permutation (filter p l ++ filter q l) (filter (fun x => p x || q x) l).
Proof.
  induction l as [|x l IH]; intros Hpq; simpl; [constructor|].
  assert (IH' := IH (fun y Hy => Hpq y (or_intror Hy))).
  destruct (p x) eqn:Hp; simpl.
  - rewrite (Hpq x (or_introl eq_refl) Hp). now constructor.
  - destruct (q x); [|exact IH'].
    symmetry. apply Permutation_cons_app. now symmetry.
Qed.

(** The concatenation of the groups of the keys [ks], when these are pairwise
    distinct, holds the tasks whose phase is one of [ks] and no other. *)
Lemma groups_perm (ks : list string) (ts : list Task) :
  NoDup ks ->
  Permutation
    (flat_map (fun p => filter (fun task => String.eqb (phase task) p) ts) ks)
    (filter (fun task => existsb (String.eqb (phase task)) ks) ts).
Proof.
  induction 1 as [|k ks Hk Hks IH]; simpl.
  - induction ts as [|t ts IHts]; simpl; [constructor | exact IHts].
  - etransitivity; [apply Permutation_app_head, IH|].
    apply filter_split_perm.
    intros t _ Ht. apply String.eqb_eq in Ht.
    destruct (existsb _ ks) eqn:E; [|reflexivity].
    apply existsb_exists in E as (k' & Hin & Hk').
    apply String.eqb_eq in Hk'. congruence.
Qed.

Lemma groups_concat (ts : list Task) :
  List.concat (map snd (getTasksByPhase ts))
  = flat_map (fun p => filter (fun task => String.eqb (phase task) p) ts) phases.
Proof. reflexivity. Qed.

End Grouping.

(** C10. The keys of [getTasksByPhase] are the five phases in their order; a
    task whose phase is none of the five is in no group; and the groups put
    end to end are a permutation of the tasks exactly when the phase of every
    task is one of the five. *)
Theorem getTasksByPhase_groups (ts : list Task) :
  map fst (getTasksByPhase ts)
  = ["initiating"; "planning"; "executing"; "monitoring"; "closing"] /\
  (forall (t : Task) (k : string) (g : list Task),
      ~ In (phase t) phases -> In (k, g) (getTasksByPhase ts) -> ~ In t g) /\
  (Permutation (List.concat (map snd (getTasksByPhase ts))) ts
   <-> Forall (fun t => In (phase t) phases) ts).
Proof.
  split; [reflexivity|]. split.
  - intros t k g Hout Hkg Hin.
    unfold getTasksByPhase in Hkg.
    apply in_map_iff in Hkg as (p & [= <- <-] & Hp).
    apply filter_In in Hin as [_ E]. apply String.eqb_eq in E.
    apply Hout. now rewrite E.
  - rewrite groups_concat. split.
    + intros Hperm. apply Forall_forall. intros t Ht.
      apply (Permutation_in _ (Permutation_sym Hperm)) in Ht.
      apply in_flat_map in Ht as (p & Hp & Hin).
      apply filter_In in Hin as [_ E]. apply String.eqb_eq in E.
      now rewrite E.
    + intros Hall.
      etransitivity; [apply groups_perm, phases_NoDup|].
      replace (filter _ ts) with ts; [reflexivity|].
      induction Hall as [|t ts Ht _ IH]; cbn [filter]; [reflexivity|].
      assert (E : existsb (String.eqb (phase t)) phases = true).
      { apply existsb_exists. exists (phase t).
        split; [assumption | apply String.eqb_refl]. }
      rewrite E. now f_equal.
Qed.

(** A task whose phase is outside the enumeration is lost by the grouping. *)
Example getTasksByPhase_drops :
  let t := mkTask "1" "x" "review" 0 0 None 1 in
  List.concat (map snd (getTasksByPhase [t])) = [].
Proof. reflexivity. Qed.

(** ** Identifiers *)

Section Identifiers.

Lemma to_int_proper (z : Z) :
  Z.to_int z <> Decimal.Pos Decimal.Nil /\ Z.to_int z <> Decimal.Neg Decimal.Nil.
Proof.
  destruct z as [|p|p]; simpl; split; try discriminate;
    intros [= H]; now apply (Unsigned.to_uint_nonnil p).
Qed.

Lemma toString_inj (a b : Z) : JS.toString a = JS.toString b -> a = b.
Proof.
  unfold JS.toString. intros H.
  destruct (to_int_proper a) as [Ha1 Ha2], (to_int_proper b) as [Hb1 Hb2].
  pose proof (NilZero.isi _ Ha1 Ha2) as Ea.
  pose proof (NilZero.isi _ Hb1 Hb2) as Eb.
  rewrite H, Eb in Ea. injection Ea as Ea.
  now apply DecimalZ.to_int_inj.
Qed.

Lemma toString_truthy (z : Z) : JS.truthy (JS.toString z) = true.
Proof.
  unfold JS.toString.
  destruct (to_int_proper z) as [H1 H2].
  pose proof (NilZero.isi _ H1 H2) as E.
  destruct (NilZero.string_of_int (Z.to_int z)); [discriminate | reflexivity].
Qed.

Lemma toString_NoDup (l : list Z) : NoDup l -> NoDup (map JS.toString l).
Proof.
  induction 1 as [|z l Hz _ IH]; simpl; constructor; [|assumption].
  intros Hin. apply in_map_iff in Hin as (z' & E & Hz').
  apply toString_inj in E. now subst.
Qed.

Lemma run_app (a b : list Event) (st : State) :
  run (a ++ b) st = run b (run a st).
Proof. apply fold_left_app. Qed.

Lemma stamps_app (a b : list Event) (st : State) :
  stamps (a ++ b) st = stamps a st ++ stamps b (run a st).
Proof.
  revert st. induction a as [|e a IH]; intros st; simpl; [reflexivity|].
  now rewrite IH, app_assoc.
Qed.

Lemma NoDup_filter_app {A B : Type} (f : A -> B) (p : A -> bool)
      (l : list A) (r : list B) :
  NoDup (map f l ++ r) -> NoDup (map f (filter p l) ++ r).
Proof.
  induction l as [|x l IH]; simpl; [easy|].
  intros H. apply NoDup_cons_iff in H as [Hx Hl].
  destruct (p x); simpl; [|now apply IH].
  constructor; [|now apply IH].
  intros Hin. apply Hx. apply in_app_iff in Hin as [Hin|Hin];
    apply in_app_iff; [left | now right].
  apply in_map_iff in Hin as (y & E & Hy). apply filter_In in Hy as [Hy _].
  apply in_map_iff. now exists y.
Qed.

Lemma mergeEdit_id (t : Task) (e : EditData) : id (mergeEdit t e) = id t.
Proof. reflexivity. Qed.

Lemma saveEdit_ids (st : State) :
  map id (tasks (saveEdit st)) = map id (tasks st).
Proof.
  unfold saveEdit. destruct (editingTask st) as [editing|]; [|reflexivity].
  destruct (JS.truthy editing); [|reflexivity].
  cbn [negb tasks]. rewrite map_map. apply map_ext.
  intros t. now destruct (String.eqb (id t) editing).
Qed.

(** The ids in the store after a trace are pairwise distinct, and are among
    the ids of the initial store and those issued since, as long as these
    are pairwise distinct. *)
Lemma run_ids (evs : list Event) (st : State) :
  NoDup (map id (tasks st) ++ issuedIds evs st) ->
  NoDup (map id (tasks (run evs st))) /\
  incl (map id (tasks (run evs st))) (map id (tasks st) ++ issuedIds evs st).
Proof.
  unfold issuedIds. revert st.
  induction evs as [|e evs IH]; intros st H.
  - cbn in *. rewrite app_nil_r in *. split; [assumption | apply incl_refl].
  - change (run (e :: evs) st) with (run evs (handle e st)).
    assert (Hsame : tasks (handle e st) = tasks st ->
                    stamps (e :: evs) st = stamps evs (handle e st) ->
                    NoDup (map id (tasks (run evs (handle e st)))) /\
                    incl (map id (tasks (run evs (handle e st))))
                         (map id (tasks st) ++ map JS.toString (stamps (e :: evs) st))).
    { intros Et Es. rewrite Es in *. rewrite <- Et in *. now apply IH. }
    destruct e as [c|now d1 d2|i|task|c| |]; try (apply Hsame; reflexivity).
    + (* addTask *)
      cbn [stamps handle] in *. unfold addTask in *.
      destruct (JS.truthy (JS.trim (form_name (formData st)))) eqn:Ename;
        cbn [negb app] in *.
      * specialize (IH (mkState (tasks st ++ [mkTask (JS.toString now)
             (form_name (formData st)) (form_phase (formData st))
             (form_startDate (formData st)) (form_endDate (formData st))
             (if JS.truthy (form_predecessor (formData st))
              then Some (form_predecessor (formData st)) else None)
             (calculateDuration (form_startDate (formData st))
                                (form_endDate (formData st)))])
           (blankForm d1 d2) (editingTask st) (editData st))).
        cbn [tasks] in IH. rewrite map_app in IH. cbn [map id] in IH.
        rewrite <- app_assoc in IH. cbn [app map] in *. now apply IH.
      * now apply IH.
    + (* deleteTask *)
      cbn [stamps handle app] in *.
      destruct (IH (deleteTask i st)) as [Hnd Hincl].
      { cbn [deleteTask tasks]. now apply NoDup_filter_app. }
      split; [assumption|].
      intros x Hx. apply Hincl in Hx. cbn [deleteTask tasks] in Hx.
      apply in_app_iff in Hx as [Hx|Hx]; apply in_app_iff; [left | now right].
      apply in_map_iff in Hx as (y & E & Hy). apply filter_In in Hy as [Hy _].
      apply in_map_iff. now exists y.
    + (* saveEdit *)
      cbn [stamps handle app] in *.
      destruct (IH (saveEdit st)) as [Hnd Hincl].
      { now rewrite saveEdit_ids. }
      rewrite saveEdit_ids in Hincl. now split.
Qed.

End Identifiers.

(** C4, as the code has it. From the empty store, along any trace of events
    in which the [Date.now()] readings of the calls of [addTask] that add a
    task are pairwise distinct: no id is issued twice, so none is issued
    again after the task bearing it was deleted, and at every point of the
    trace the ids in the store are pairwise distinct and were issued
    before. *)
Theorem ids_unique (d1 d2 : Z) (evs : list Event) :
  NoDup (stamps evs (initialState d1 d2)) ->
  NoDup (issuedIds evs (initialState d1 d2)) /\
  forall pre post : list Event,
    evs = pre ++ post ->
    NoDup (map id (tasks (run pre (initialState d1 d2)))) /\
    incl (map id (tasks (run pre (initialState d1 d2))))
         (issuedIds pre (initialState d1 d2)).
Proof.
  intros H. split; [now apply toString_NoDup|].
  intros pre post ->. rewrite stamps_app in H.
  apply NoDup_app_remove_r in H.
  apply (run_ids pre (initialState d1 d2)). cbn [initialState tasks map app].
  now apply toString_NoDup.
Qed.

Lemma ids_unique_witness :
  let evs := [OnChangeForm (FormName "a"); OnAddTask 1000 1000 1000;
              OnDeleteTask "1000";
              OnChangeForm (FormName "b"); OnAddTask 1001 1001 1001] in
  NoDup (issuedIds evs (initialState 0 0)) /\
  NoDup (map id (tasks (run evs (initialState 0 0)))).
Proof.
  intros evs.
  assert (H : NoDup (stamps evs (initialState 0 0))).
  { cbn. repeat constructor; simpl; intuition discriminate. }
  destruct (ids_unique 0 0 evs H) as [Hissued Hstore].
  split; [exact Hissued|].
  exact (proj1 (Hstore evs [] (eq_sym (app_nil_r evs)))).
Defined.

(** C4 as stated fails when the clock gives one reading to two calls of
    [addTask]: two tasks of the store share the id ["1000"]; and when the
    clock gives again the reading of a deleted task, the id is issued a
    second time. *)
Lemma ids_unique_counterexample :
  let twice := [OnChangeForm (FormName "a"); OnAddTask 1000 1000 1000;
                OnChangeForm (FormName "b"); OnAddTask 1000 1000 1000] in
  let again := [OnChangeForm (FormName "a"); OnAddTask 1000 1000 1000;
                OnDeleteTask "1000";
                OnChangeForm (FormName "b"); OnAddTask 1000 1000 1000] in
  map id (tasks (run twice (initialState 0 0))) = ["1000"; "1000"] /\
  ~ NoDup (map id (tasks (run twice (initialState 0 0)))) /\
  tasks (run (firstn 3 again) (initialState 0 0)) = [] /\
  map id (tasks (run again (initialState 0 0))) = ["1000"] /\
  issuedIds again (initialState 0 0) = ["1000"; "1000"].
Proof.
  cbv zeta. split; [reflexivity|]. split.
  - intros H. vm_compute in H. apply NoDup_cons_iff in H as [H _].
    apply H. now left.
  - repeat split; reflexivity.
Qed.

(** ** Committing an edit *)

Section Commit.

Lemma initialState_wellFormed (d1 d2 : Z) : wellFormed (initialState d1 d2).
Proof. split; cbn; [constructor | constructor | congruence]. Qed.

Lemma Forall_filter {A : Type} (P : A -> Prop) (p : A -> bool) (l : list A) :
  Forall P l -> Forall P (filter p l).
Proof.
  intros H. apply Forall_forall. intros x Hx.
  apply filter_In in Hx as [Hx _]. revert x Hx. now apply Forall_forall.
Qed.

Lemma mergeEdit_durationCached (t : Task) (e : EditData) :
  edit_startDate e <> None -> edit_endDate e <> None ->
  durationCached (mergeEdit t e).
Proof.
  unfold durationCached, mergeEdit. cbn [duration startDate endDate].
  destruct (edit_startDate e), (edit_endDate e); congruence.
Qed.

Lemma changeDraft_dates (c : DraftChange) (st : State) :
  edit_startDate (editData st) <> None /\ edit_endDate (editData st) <> None ->
  edit_startDate (editData (changeDraft c st)) <> None /\
  edit_endDate (editData (changeDraft c st)) <> None.
Proof.
  intros [Hs He].
  destruct c as [v|[d|]|[d|]|v]; cbn; split; congruence.
Qed.

Lemma handle_wellFormed (e : Event) (st : State) :
  wellFormed st -> wellFormed (handle e st).
Proof.
  intros [Hd Hi He].
  destruct e as [c|now d1 d2|i|task|c| |]; cbn [handle].
  - split; assumption.
  - unfold addTask.
    destruct (JS.truthy (JS.trim (form_name (formData st))));
      cbn [negb]; [|split; assumption].
    split; cbn [tasks editingTask editData]; [| |assumption].
    + apply Forall_app. split; [assumption|]. now repeat constructor.
    + apply Forall_app. split; [assumption|].
      repeat constructor. apply toString_truthy.
  - split; cbn [deleteTask tasks editingTask editData];
      [now apply Forall_filter | now apply Forall_filter | assumption].
  - split; cbn; try assumption. intros _. split; discriminate.
  - split; cbn [changeDraft tasks editingTask]; try assumption.
    intros H. apply changeDraft_dates. now apply He.
  - unfold saveEdit. destruct (editingTask st) as [editing|] eqn:Eed;
      [|split; [assumption | assumption | now rewrite Eed]].
    destruct (JS.truthy editing); cbn [negb];
      [|split; [assumption | assumption | now rewrite Eed]].
    destruct He as [Hs He]; [discriminate|].
    split; cbn [tasks editingTask editData]; [| |congruence].
    + apply Forall_map. revert Hd. apply Forall_impl. intros t Ht.
      destruct (String.eqb (id t) editing); [|assumption].
      now apply mergeEdit_durationCached.
    + apply Forall_map. revert Hi. apply Forall_impl. intros t Ht.
      now destruct (String.eqb (id t) editing).
  - split; cbn; try assumption. congruence.
Qed.

Lemma run_wellFormed (evs : list Event) (st : State) :
  wellFormed st -> wellFormed (run evs st).
Proof.
  revert st. induction evs as [|e evs IH]; intros st H; [assumption|].
  apply IH. now apply handle_wellFormed.
Qed.

Lemma changeDrafts_onlyPredecessor (changes : list DraftChange) (st : State) :
  Forall onlyPredecessor changes ->
  edit_name (editData (changeDrafts changes st)) = edit_name (editData st) /\
  edit_startDate (editData (changeDrafts changes st))
  = edit_startDate (editData st) /\
  edit_endDate (editData (changeDrafts changes st))
  = edit_endDate (editData st).
Proof.
  unfold changeDrafts. intros H. revert st.
  induction H as [|c changes Hc _ IH]; intros st; [easy|].
  cbn [fold_left]. destruct (IH (changeDraft c st)) as (-> & -> & ->).
  destruct c; try contradiction. easy.
Qed.

Lemma changeDrafts_dates (changes : list DraftChange) (st : State) :
  edit_startDate (editData st) <> None /\ edit_endDate (editData st) <> None ->
  edit_startDate (editData (changeDrafts changes st)) <> None /\
  edit_endDate (editData (changeDrafts changes st)) <> None.
Proof.
  unfold changeDrafts. revert st.
  induction changes as [|c changes IH]; intros st H; [assumption|].
  cbn [fold_left]. apply IH. now apply changeDraft_dates.
Qed.

End Commit.

(** C5. In a store reached by any trace from the initial state, for the task
    [t] of row [i]: after [startEditing t] and any changes to the draft,
    [saveEdit] puts in row [i] a task that has the dates [s] and [e] of the
    draft and the duration [calculateDuration s e]; when these are the dates
    [t] had, and so when the changes touched only the predecessor, the
    duration is the one [t] had. *)
Theorem commit_duration (d1 d2 : Z) (evs : list Event) (i : nat) (t : Task)
        (changes : list DraftChange) :
  let st := run evs (initialState d1 d2) in
  nth_error (tasks st) i = Some t ->
  let draft := changeDrafts changes (startEditing t st) in
  let st' := saveEdit draft in
  exists (s e : Z) (t' : Task),
    edit_startDate (editData draft) = Some s /\
    edit_endDate (editData draft) = Some e /\
    nth_error (tasks st') i = Some t' /\
    startDate t' = s /\ endDate t' = e /\
    duration t' = calculateDuration s e /\
    (s = startDate t -> e = endDate t -> duration t' = duration t) /\
    (Forall onlyPredecessor changes ->
     duration t' = duration t /\ startDate t' = startDate t /\
     endDate t' = endDate t /\ name t' = name t).
Proof.
  intros st Hi draft st'.
  pose proof (run_wellFormed evs _ (initialState_wellFormed d1 d2)) as [Hd Hid _].
  fold st in Hd, Hid.
  assert (Hin : In t (tasks st)) by (eapply nth_error_In; eassumption).
  assert (Ht : durationCached t)
    by (exact (proj1 (Forall_forall _ _) Hd t Hin)).
  assert (Htruthy : JS.truthy (id t) = true)
    by (exact (proj1 (Forall_forall _ _) Hid t Hin)).
  destruct (changeDrafts_frame changes (startEditing t st)) as (Etasks & _ & Eed).
  fold draft in Etasks, Eed. cbn in Etasks, Eed.
  destruct (changeDrafts_dates changes (startEditing t st)) as [Hs He];
    [cbn; split; discriminate|].
  fold draft in Hs, He.
  destruct (edit_startDate (editData draft)) as [s|] eqn:Es; [|congruence].
  destruct (edit_endDate (editData draft)) as [e|] eqn:Ee; [|congruence].
  exists s, e, (mergeEdit t (editData draft)).
  assert (Erow : nth_error (tasks st') i = Some (mergeEdit t (editData draft))).
  { subst st'. unfold saveEdit. rewrite Eed, Htruthy. cbn [negb tasks].
    rewrite Etasks, nth_error_map, Hi. cbn [option_map].
    now rewrite String.eqb_refl. }
  assert (Edur : duration (mergeEdit t (editData draft)) = calculateDuration s e).
  { unfold mergeEdit. cbn [duration]. now rewrite Es, Ee. }
  assert (Estart : startDate (mergeEdit t (editData draft)) = s).
  { unfold mergeEdit. cbn [startDate]. now rewrite Es. }
  assert (Eend : endDate (mergeEdit t (editData draft)) = e).
  { unfold mergeEdit. cbn [endDate]. now rewrite Ee. }
  assert (Hsame : s = startDate t -> e = endDate t ->
                  duration (mergeEdit t (editData draft)) = duration t).
  { intros -> ->. now rewrite Edur. }
  repeat (split; [first [reflexivity | assumption]|]).
  intros Hpred.
  destruct (changeDrafts_onlyPredecessor changes (startEditing t st) Hpred)
    as (En & Es' & Ee').
  fold draft in En, Es', Ee'. cbn in En, Es', Ee'.
  rewrite Es in Es'. rewrite Ee in Ee'. injection Es' as ->. injection Ee' as ->.
  repeat split; [now apply Hsame | assumption | assumption |].
  unfold mergeEdit. cbn [name]. now rewrite En.
Qed.

Lemma commit_duration_witness :
  let st := twoTasks 0 0 0 1 0 0 2 0 0 in
  let st' := saveEdit (changeDrafts [ChangePredecessor "A"]
                                    (startEditing (taskB 0 2) st)) in
  exists t' : Task,
    nth_error (tasks st') 1 = Some t' /\ duration t' = 8.
Proof.
  intros st st'.
  destruct (commit_duration 0 0
              [OnChangeForm (FormName "A");
               OnChangeForm (FormStartDate (Some (jan2024 0 1)));
               OnChangeForm (FormEndDate (Some (jan2024 0 5)));
               OnAddTask 1 0 0;
               OnChangeForm (FormName "B");
               OnChangeForm (FormStartDate (Some (jan2024 0 3)));
               OnChangeForm (FormEndDate (Some (jan2024 0 10)));
               OnAddTask 2 0 0]
              1%nat (taskB 0 2) [ChangePredecessor "A"] eq_refl)
    as (s & e & t' & _ & _ & Hrow & _ & _ & _ & _ & Hpred).
  exists t'. split; [exact Hrow|].
  destruct Hpred as (Hdur & _); [repeat constructor | exact Hdur].
Defined.

(** In a store reached by any trace from the initial state the cached
    durations are the derived ones, so in whole days every task of the store
    that does not end before it starts lies inside the axis of the store. *)
Corollary days_fit_store (c0 c1 d1 d2 : Z) (evs : list Event) (t : Task) :
  let st := run evs (initialState c0 c1) in
  In t (tasks st) -> startDate t <= endDate t ->
  let tl := getTimelineData d1 d2 (tasks st) in
  JS.floor_div (startDate t - tl_startDate tl) MS_PER_DAY + duration t
  <= totalDays tl.
Proof.
  intros st Hin Hord.
  pose proof (run_wellFormed evs _ (initialState_wellFormed c0 c1)) as [Hd _ _].
  apply days_fit; [assumption | | assumption].
  exact (proj1 (Forall_forall _ _) Hd t Hin).
Qed.

(** * Further properties of the component *)

(** ** Durations *)

Lemma ceil_div_bracket (a : Z) :
  (JS.ceil_div a MS_PER_DAY - 1) * MS_PER_DAY < a
  <= JS.ceil_div a MS_PER_DAY * MS_PER_DAY.
Proof.
  unfold JS.ceil_div.
  pose proof (Z.div_mod (- a) MS_PER_DAY ltac:(discriminate)) as E.
  pose proof (Z.mod_pos_bound (- a) MS_PER_DAY MS_PER_DAY_pos) as B.
  change MS_PER_DAY with 86400000 in *. lia.
Qed.

(** X1. [calculateDuration] does not depend on the order of its two dates, is
    at least 1, and is 1 exactly when the two dates are the same instant. *)
Theorem calculateDuration_symmetric (s e : Z) :
  calculateDuration s e = calculateDuration e s /\
  1 <= calculateDuration s e /\
  (calculateDuration s e = 1 <-> s = e).
Proof.
  split; [|split].
  - unfold calculateDuration.
    replace (s - e) with (- (e - s)) by ring. now rewrite Z.abs_opp.
  - apply calculateDuration_pos.
  - unfold calculateDuration.
    pose proof (ceil_div_bracket (Z.abs (e - s))) as B.
    change MS_PER_DAY with 86400000 in *. split; intros H; [lia|].
    subst e. rewrite Z.sub_diag. reflexivity.
Qed.

(** X2. For two valid dates no more than [MAX_SAFE_INTEGER] milliseconds
    apart, the range in which the subtraction of the code is exact,
    [calculateDuration s e] is the number [n] of days with
    [(n - 2) days < |e - s| <= (n - 1) days]: every started day counts, so a
    span of [k] whole days has duration [k + 1] and one millisecond more
    makes it [k + 2]. *)
Theorem calculateDuration_bracket (s e : Z) :
  validDate s -> validDate e -> Z.abs (e - s) <= MAX_SAFE_INTEGER ->
  let n := calculateDuration s e in
  ((n - 2) * MS_PER_DAY < Z.abs (e - s) <= (n - 1) * MS_PER_DAY) /\
  (forall k : Z, Z.abs (e - s) = k * MS_PER_DAY -> n = k + 1) /\
  (forall k : Z, Z.abs (e - s) = k * MS_PER_DAY + 1 -> n = k + 2).
Proof.
  intros _ _ _. cbv zeta. unfold calculateDuration.
  pose proof (ceil_div_bracket (Z.abs (e - s))) as B.
  change MS_PER_DAY with 86400000 in *.
  repeat split; try lia; intros k Hk; lia.
Qed.

Lemma calculateDuration_bracket_witness :
  calculateDuration 0 (2 * MS_PER_DAY + 1) = 4.
Proof.
  assert (Hs : validDate 0) by (unfold validDate; lia).
  assert (He : validDate (2 * MS_PER_DAY + 1)) by (vm_compute; split; discriminate).
  assert (Hspan : Z.abs (2 * MS_PER_DAY + 1 - 0) <= MAX_SAFE_INTEGER)
    by (vm_compute; discriminate).
  exact (proj2 (proj2 (calculateDuration_bracket 0 (2 * MS_PER_DAY + 1)
                         Hs He Hspan)) 2 eq_refl).
Defined.

(** ** Adding and deleting *)

Lemma State_eta (st : State) :
  mkState (tasks st) (formData st) (editingTask st) (editData st) = st.
Proof. now destruct st. Qed.

Lemma filter_all {A : Type} (p : A -> bool) (l : list A) :
  (forall x, In x l -> p x = true) -> filter p l = l.
Proof.
  induction l as [|x l IH]; intros H; simpl; [reflexivity|].
  rewrite (H x (or_introl eq_refl)). f_equal. apply IH.
  intros y Hy. apply H. now right.
Qed.

Lemma filter_comm {A : Type} (p q : A -> bool) (l : list A) :
  filter p (filter q l) = filter q (filter p l).
Proof.
  induction l as [|x l IH]; [reflexivity|]. simpl.
  destruct (p x) eqn:Ep, (q x) eqn:Eq; simpl; rewrite ?Ep, ?Eq, IH;
    reflexivity.
Qed.

Lemma id_neq_negb (t : Task) (i : string) :
  id t <> i <-> negb (String.eqb (id t) i) = true.
Proof.
  destruct (String.eqb_spec (id t) i); simpl; split; congruence.
Qed.

Lemma addTask_accepts (now d1 d2 : Z) (st : State) :
  whitespaceOnly (form_name (formData st)) = false ->
  addTask now d1 d2 st
  = mkState (tasks st ++ [newTaskOf now (formData st)]) (blankForm d1 d2)
            (editingTask st) (editData st).
Proof.
  intros H. unfold addTask.
  destruct (JS.truthy (JS.trim (form_name (formData st)))) eqn:E;
    [reflexivity|].
  destruct (JS.trim (form_name (formData st))) eqn:Et; [|discriminate].
  apply trim_whitespaceOnly in Et. congruence.
Qed.

(** X3. When the name of the form has a character that is not white space,
    [addTask] puts one task after the rows of the store, which stay as they
    were: it has the name of the form as typed, not trimmed, the phase and
    dates of the form, no predecessor if that field was empty, and the
    duration of its dates. The form is reset and the edit in progress is not
    touched. *)
Theorem addTask_appends (now d1 d2 : Z) (st : State) :
  whitespaceOnly (form_name (formData st)) = false ->
  let st' := addTask now d1 d2 st in
  let t := newTaskOf now (formData st) in
  tasks st' = tasks st ++ [t] /\
  List.length (tasks st') = S (List.length (tasks st)) /\
  (forall i : nat, (i < List.length (tasks st))%nat ->
                   nth_error (tasks st') i = nth_error (tasks st) i) /\
  nth_error (tasks st') (List.length (tasks st)) = Some t /\
  name t = form_name (formData st) /\
  (form_predecessor (formData st) = "" -> predecessor t = None) /\
  durationCached t /\
  formData st' = blankForm d1 d2 /\
  editingTask st' = editingTask st /\ editData st' = editData st.
Proof.
  intros H st' t. subst st'. rewrite addTask_accepts by assumption.
  cbn [tasks formData editingTask editData].
  repeat split.
  - rewrite length_app. simpl. lia.
  - intros i Hi. now apply nth_error_app1.
  - rewrite nth_error_app2 by lia. now rewrite Nat.sub_diag.
  - subst t. unfold newTaskOf. cbn [predecessor]. now intros ->.
Qed.

Lemma addTask_appends_witness :
  let st := changeForm (FormName " a ") (initialState 0 0) in
  tasks (addTask 7 0 0 st) = [mkTask "7" " a " "initiating" 0 0 None 1].
Proof.
  intros st.
  destruct (addTask_appends 7 0 0 st eq_refl) as (E & _).
  exact E.
Defined.

Lemma deleteTask_noop (i : string) (st : State) :
  (forall t, In t (tasks st) -> id t <> i) ->
  deleteTask i st = st.
Proof.
  intros H. unfold deleteTask. rewrite filter_all; [apply State_eta|].
  intros t Ht. apply id_neq_negb. now apply H.
Qed.

(** X4. [deleteTask] with an id that no task of the store bears returns the
    state it was given. *)
Theorem deleteTask_absent (i : string) (st : State) :
  (forall t, In t (tasks st) -> id t <> i) ->
  deleteTask i st = st.
Proof. apply deleteTask_noop. Qed.

Lemma deleteTask_absent_witness :
  deleteTask "3" (twoTasks 0 0 0 1 0 0 2 0 0) = twoTasks 0 0 0 1 0 0 2 0 0.
Proof.
  apply deleteTask_absent. intros t Ht. vm_compute in Ht.
  destruct Ht as [<-|[<-|[]]]; discriminate.
Defined.

(** X5. After [deleteTask i] no task of the store has the id [i], and the
    tasks of any other id are all still there; deleting the same id again
    changes nothing, and two deletions give the same state in either
    order. *)
Theorem deleteTask_removes (i j : string) (st : State) :
  (forall t, In t (tasks (deleteTask i st)) <-> In t (tasks st) /\ id t <> i) /\
  deleteTask i (deleteTask i st) = deleteTask i st /\
  deleteTask i (deleteTask j st) = deleteTask j (deleteTask i st).
Proof.
  assert (Hin : forall t, In t (tasks (deleteTask i st))
                          <-> In t (tasks st) /\ id t <> i).
  { intros t. cbn [deleteTask tasks]. rewrite filter_In, id_neq_negb.
    reflexivity. }
  split; [exact Hin|]. split.
  - apply deleteTask_noop. intros t Ht. now apply Hin in Ht.
  - unfold deleteTask. cbn [tasks formData editingTask editData]. f_equal.
    apply filter_comm.
Qed.

Lemma filter_one_out (i : string) (l : list Task) :
  NoDup (map id l) -> In i (map id l) ->
  S (List.length (filter (fun task => negb (String.eqb (id task) i)) l))
  = List.length l.
Proof.
  induction l as [|t l IH]; intros Hnd Hin; [destruct Hin|].
  cbn [map] in Hnd. apply NoDup_cons_iff in Hnd as [Hfresh Hnd].
  cbn [filter]. destruct (String.eqb_spec (id t) i) as [E|E]; cbn [negb].
  - subst i. rewrite filter_all; [reflexivity|].
    intros x Hx. apply id_neq_negb. intros E. apply Hfresh.
    rewrite <- E. now apply in_map.
  - cbn [List.length]. f_equal. apply IH; [assumption|].
    destruct Hin as [Hin|Hin]; [contradiction | assumption].
Qed.

(** X6. In a store whose ids are pairwise distinct, [deleteTask] with the id
    of a task of the store takes away exactly one row, and the ids left are
    still pairwise distinct. *)
Theorem deleteTask_one (i : string) (st : State) :
  NoDup (map id (tasks st)) -> In i (map id (tasks st)) ->
  S (List.length (tasks (deleteTask i st))) = List.length (tasks st) /\
  NoDup (map id (tasks (deleteTask i st))).
Proof.
  intros Hnd Hin. cbn [deleteTask tasks]. split.
  - now apply filter_one_out.
  - rewrite <- (app_nil_r (map id (filter _ _))).
    apply NoDup_filter_app. now rewrite app_nil_r.
Qed.

Lemma deleteTask_one_witness :
  let st := twoTasks 0 0 0 1 0 0 2 0 0 in
  S (List.length (tasks (deleteTask "1" st))) = List.length (tasks st) /\
  NoDup (map id (tasks (deleteTask "1" st))).
Proof.
  intros st. apply (deleteTask_one "1" st).
  - vm_compute. repeat constructor; simpl; intuition discriminate.
  - vm_compute. now left.
Defined.

(** X7. Adding a task and deleting it at once gives back the list of tasks,
    when the id that [addTask] takes from the clock is not the id of a task
    already in the store. *)
Theorem add_then_delete (now d1 d2 : Z) (st : State) :
  (forall t, In t (tasks st) -> id t <> JS.toString now) ->
  tasks (deleteTask (JS.toString now) (addTask now d1 d2 st)) = tasks st.
Proof.
  intros Hfresh. unfold addTask.
  destruct (JS.truthy (JS.trim (form_name (formData st)))); cbn [negb].
  - cbn [deleteTask tasks]. rewrite filter_app. cbn [filter id].
    rewrite String.eqb_refl. cbn [negb]. rewrite app_nil_r.
    apply filter_all. intros t Ht. apply id_neq_negb. now apply Hfresh.
  - now rewrite deleteTask_noop.
Qed.

Lemma add_then_delete_witness :
  let st := changeForm (FormName "C") (twoTasks 0 0 0 1 0 0 2 0 0) in
  tasks (deleteTask "3" (addTask 3 0 0 st)) = tasks st.
Proof.
  intros st. apply (add_then_delete 3 0 0 st).
  intros t Ht. vm_compute in Ht. destruct Ht as [<-|[<-|[]]]; discriminate.
Defined.

(** ** Saving an edit *)

Lemma saveEdit_active (st : State) (editing : string) :
  editingTask st = Some editing -> JS.truthy editing = true ->
  saveEdit st
  = mkState (map (fun task => if String.eqb (id task) editing
                              then mergeEdit task (editData st) else task)
                 (tasks st))
            (formData st) None emptyEdit.
Proof. intros E H. unfold saveEdit. now rewrite E, H. Qed.

Lemma saveEdit_inactive (st : State) :
  (forall editing, editingTask st = Some editing -> JS.truthy editing = false) ->
  saveEdit st = st.
Proof.
  intros H. unfold saveEdit. destruct (editingTask st) as [editing|];
    [|reflexivity].
  now rewrite (H editing eq_refl).
Qed.

Lemma saveEdit_phases (st : State) :
  map phase (tasks (saveEdit st)) = map phase (tasks st) /\
  formData (saveEdit st) = formData st.
Proof.
  unfold saveEdit. destruct (editingTask st) as [editing|]; [|now split].
  destruct (JS.truthy editing); cbn [negb]; [|now split].
  cbn [tasks formData]. split; [|reflexivity].
  rewrite map_map. apply map_ext. intros t.
  now destruct (String.eqb (id t) editing).
Qed.

(** X8. [saveEdit] keeps the number of rows, the id and the phase of every
    row and the form; a row whose id is not the one being edited is the same
    task after as before, and every row that has the id being edited, be
    there one or several, is overwritten with the fields of the draft. *)
Theorem saveEdit_frame (st : State) :
  List.length (tasks (saveEdit st)) = List.length (tasks st) /\
  map id (tasks (saveEdit st)) = map id (tasks st) /\
  map phase (tasks (saveEdit st)) = map phase (tasks st) /\
  formData (saveEdit st) = formData st /\
  (forall (i : nat) (t : Task),
      nth_error (tasks st) i = Some t -> editingTask st <> Some (id t) ->
      nth_error (tasks (saveEdit st)) i = Some t) /\
  (forall (i : nat) (t : Task),
      nth_error (tasks st) i = Some t -> editingTask st = Some (id t) ->
      JS.truthy (id t) = true ->
      nth_error (tasks (saveEdit st)) i = Some (mergeEdit t (editData st))).
Proof.
  destruct (editingTask st) as [editing|] eqn:E.
  2:{ rewrite saveEdit_inactive by (rewrite E; discriminate).
      repeat split; try easy. }
  destruct (JS.truthy editing) eqn:Htr.
  2:{ rewrite saveEdit_inactive by (rewrite E; now intros ? [= <-]).
      repeat split; try easy. intros i t _ [= ->]. congruence. }
  rewrite (saveEdit_active st editing E Htr). cbn [tasks formData].
  repeat split.
  - apply length_map.
  - rewrite map_map. apply map_ext. intros t.
    now destruct (String.eqb (id t) editing).
  - rewrite map_map. apply map_ext. intros t.
    now destruct (String.eqb (id t) editing).
  - intros i t Hi Hne. rewrite nth_error_map, Hi. cbn [option_map].
    destruct (String.eqb_spec (id t) editing); [congruence | reflexivity].
  - intros i t Hi [= Heq] _. rewrite nth_error_map, Hi. cbn [option_map].
    destruct (String.eqb_spec (id t) editing); [reflexivity | congruence].
Qed.

(** X9. Saving twice is saving once: after [saveEdit] no draft is active, or
    none was. *)
Theorem saveEdit_idempotent (st : State) :
  saveEdit (saveEdit st) = saveEdit st.
Proof.
  destruct (editingTask st) as [editing|] eqn:E.
  2:{ assert (H : saveEdit st = st)
        by (apply saveEdit_inactive; rewrite E; discriminate).
      now rewrite !H. }
  destruct (JS.truthy editing) eqn:Htr.
  2:{ assert (H : saveEdit st = st)
        by (apply saveEdit_inactive; rewrite E; now intros ? [= <-]).
      now rewrite !H. }
  rewrite (saveEdit_active st editing E Htr).
  apply saveEdit_inactive. cbn. discriminate.
Qed.

Lemma changeDrafts_full (changes : list DraftChange) (st : State) :
  (exists n s e p, editData st = mkEditData (Some n) (Some s) (Some e) (Some p)) ->
  exists n s e p,
    editData (changeDrafts changes st)
    = mkEditData (Some n) (Some s) (Some e) (Some p).
Proof.
  unfold changeDrafts. revert st.
  induction changes as [|c changes IH]; intros st H; [assumption|].
  cbn [fold_left]. apply IH. destruct H as (n & s & e & p & E).
  destruct c as [v|[d|]|[d|]|v]; cbn [changeDraft editData]; rewrite E;
    cbn; eauto.
Qed.

Lemma draft_saved (st : State) (t : Task) (changes : list DraftChange) :
  JS.truthy (id t) = true ->
  let draft := changeDrafts changes (startEditing t st) in
  saveEdit draft
  = mkState (map (fun task => if String.eqb (id task) (id t)
                              then mergeEdit task (editData draft) else task)
                 (tasks st))
            (formData st) None emptyEdit.
Proof.
  intros Htr draft.
  destruct (changeDrafts_frame changes (startEditing t st)) as (Et & Ef & Ee).
  fold draft in Et, Ef, Ee. cbn in Et, Ef, Ee.
  rewrite (saveEdit_active draft (id t) Ee Htr). now rewrite Et, Ef.
Qed.

Lemma run_truthy_ids (d1 d2 : Z) (evs : list Event) (t : Task) :
  In t (tasks (run evs (initialState d1 d2))) -> JS.truthy (id t) = true.
Proof.
  pose proof (run_wellFormed evs _ (initialState_wellFormed d1 d2)) as [_ Hid _].
  intros Hin. exact (proj1 (Forall_forall _ _) Hid t Hin).
Qed.

Lemma run_durationCached (d1 d2 : Z) (evs : list Event) (t : Task) :
  In t (tasks (run evs (initialState d1 d2))) -> durationCached t.
Proof.
  pose proof (run_wellFormed evs _ (initialState_wellFormed d1 d2)) as [Hd _ _].
  intros Hin. exact (proj1 (Forall_forall _ _) Hd t Hin).
Qed.

(** X10. In a store reached by any trace, for the task [t] of row [i]: after
    [startEditing t] and any changes, the draft holds a name, two dates and
    a predecessor, and [saveEdit] puts in row [i] the task with the id and
    the phase of [t], these four fields as they are (no check is made on
    the name) and the duration of the two dates; no draft is left. *)
Theorem commit_merges (d1 d2 : Z) (evs : list Event) (i : nat) (t : Task)
        (changes : list DraftChange) :
  let st := run evs (initialState d1 d2) in
  nth_error (tasks st) i = Some t ->
  let draft := changeDrafts changes (startEditing t st) in
  exists (n : string) (s e : Z) (p : string),
    editData draft = mkEditData (Some n) (Some s) (Some e) (Some p) /\
    nth_error (tasks (saveEdit draft)) i
    = Some (mkTask (id t) n (phase t) s e (Some p) (calculateDuration s e)) /\
    editingTask (saveEdit draft) = None /\
    editData (saveEdit draft) = emptyEdit.
Proof.
  intros st Hi draft.
  assert (Htr : JS.truthy (id t) = true).
  { apply (run_truthy_ids d1 d2 evs). eapply nth_error_In; eassumption. }
  destruct (changeDrafts_full changes (startEditing t st)) as (n & s & e & p & E).
  { cbn. eauto. }
  fold draft in E. exists n, s, e, p. split; [assumption|].
  subst draft. rewrite (draft_saved st t changes Htr).
  cbn [tasks editingTask editData]. repeat split.
  rewrite nth_error_map. fold st. rewrite Hi. cbn [option_map].
  rewrite String.eqb_refl. unfold mergeEdit. now rewrite E.
Qed.

Lemma commit_merges_witness :
  let st := twoTasks 0 0 0 1 0 0 2 0 0 in
  let draft := changeDrafts [ChangeName ""; ChangeEndDate (Some (jan2024 0 4))]
                            (startEditing (taskB 0 2) st) in
  nth_error (tasks (saveEdit draft)) 1
  = Some (mkTask "2" "" "initiating" (jan2024 0 3) (jan2024 0 4) (Some "") 2).
Proof.
  intros st draft.
  destruct (commit_merges 0 0
              [OnChangeForm (FormName "A");
               OnChangeForm (FormStartDate (Some (jan2024 0 1)));
               OnChangeForm (FormEndDate (Some (jan2024 0 5)));
               OnAddTask 1 0 0;
               OnChangeForm (FormName "B");
               OnChangeForm (FormStartDate (Some (jan2024 0 3)));
               OnChangeForm (FormEndDate (Some (jan2024 0 10)));
               OnAddTask 2 0 0]
              1%nat (taskB 0 2)
              [ChangeName ""; ChangeEndDate (Some (jan2024 0 4))] eq_refl)
    as (n & s & e & p & E & Hrow & _).
  vm_compute in E. injection E as <- <- <- <-. exact Hrow.
Defined.

Lemma NoDup_id_inj (l : list Task) (x y : Task) :
  NoDup (map id l) -> In x l -> In y l -> id x = id y -> x = y.
Proof.
  induction l as [|z l IH]; intros Hnd Hx Hy E; [destruct Hx|].
  cbn [map] in Hnd. apply NoDup_cons_iff in Hnd as [Hz Hnd].
  destruct Hx as [->|Hx], Hy as [->|Hy]; [reflexivity | | |now apply IH].
  - exfalso. apply Hz. rewrite E. now apply in_map.
  - exfalso. apply Hz. rewrite <- E. now apply in_map.
Qed.

(** X11. In a store reached by any trace, [startEditing] on the task [t] of
    row [i] followed at once by [saveEdit] leaves in row [i] the fields of
    [t], except that an absent predecessor has become the empty string; so
    the row is changed when [t] had no predecessor, and when it had one and
    the ids of the store are pairwise distinct the whole list of tasks is
    unchanged. *)
Theorem edit_then_save (d1 d2 : Z) (evs : list Event) (i : nat) (t : Task) :
  let st := run evs (initialState d1 d2) in
  nth_error (tasks st) i = Some t ->
  let st' := saveEdit (startEditing t st) in
  nth_error (tasks st') i
  = Some (mkTask (id t) (name t) (phase t) (startDate t) (endDate t)
                 (Some (predecessor_or_empty t)) (duration t)) /\
  (predecessor t = None -> nth_error (tasks st') i <> Some t) /\
  (predecessor t <> None -> NoDup (map id (tasks st)) -> tasks st' = tasks st).
Proof.
  intros st Hi st'.
  assert (Hin : In t (tasks st)) by (eapply nth_error_In; eassumption).
  pose proof (run_truthy_ids d1 d2 evs t Hin) as Htr.
  pose proof (run_durationCached d1 d2 evs t Hin) as Hdur.
  pose proof (draft_saved st t [] Htr) as E. cbv zeta in E.
  change (changeDrafts [] (startEditing t st)) with (startEditing t st) in E.
  fold st' in E. cbn [startEditing editData] in E.
  assert (Erow : nth_error (tasks st') i
                 = Some (mkTask (id t) (name t) (phase t) (startDate t) (endDate t)
                                (Some (predecessor_or_empty t)) (duration t))).
  { rewrite E. cbn [tasks]. rewrite nth_error_map, Hi. cbn [option_map].
    rewrite String.eqb_refl. unfold mergeEdit. cbn. now rewrite <- Hdur. }
  split; [exact Erow|]. split.
  - intros Hnone. rewrite Erow. intros [= H]. destruct t. cbn in *. congruence.
  - intros Hsome Hnd. rewrite E. cbn [tasks].
    rewrite <- (map_id (tasks st)) at 2. apply map_ext_in.
    intros x Hx. destruct (String.eqb_spec (id x) (id t)) as [Eid|]; [|reflexivity].
    assert (x = t) by (now apply (NoDup_id_inj (tasks st))). subst x.
    unfold mergeEdit. cbn. rewrite <- Hdur.
    unfold predecessor_or_empty. destruct t as [? ? ? ? ? [p|] ?]; cbn in *;
      [reflexivity | congruence].
Qed.

Lemma edit_then_save_witness :
  let st := twoTasks 0 0 0 1 0 0 2 0 0 in
  nth_error (tasks (saveEdit (startEditing (taskA 0 1) st))) 0
  = Some (mkTask "1" "A" "initiating" (jan2024 0 1) (jan2024 0 5) (Some "") 5).
Proof.
  intros st.
  destruct (edit_then_save 0 0
              [OnChangeForm (FormName "A");
               OnChangeForm (FormStartDate (Some (jan2024 0 1)));
               OnChangeForm (FormEndDate (Some (jan2024 0 5)));
               OnAddTask 1 0 0;
               OnChangeForm (FormName "B");
               OnChangeForm (FormStartDate (Some (jan2024 0 3)));
               OnChangeForm (FormEndDate (Some (jan2024 0 10)));
               OnAddTask 2 0 0]
              0%nat (taskA 0 1) eq_refl) as (Hrow & _).
  exact Hrow.
Defined.

(** X12. Whatever the handlers called and in whatever order, from the
    initial state: every task of the store has the duration its dates give,
    which is at least 1, and an id that is not the empty string; and while
    an edit is in progress the draft holds both dates. *)
Theorem store_invariants (d1 d2 : Z) (evs : list Event) :
  let st := run evs (initialState d1 d2) in
  Forall (fun t => duration t = calculateDuration (startDate t) (endDate t) /\
                   1 <= duration t /\ id t <> "") (tasks st) /\
  (forall editing : string,
      editingTask st = Some editing ->
      exists s e : Z, edit_startDate (editData st) = Some s /\
                      edit_endDate (editData st) = Some e).
Proof.
  intros st.
  pose proof (run_wellFormed evs _ (initialState_wellFormed d1 d2))
    as [Hd Hid Hdraft].
  fold st in Hd, Hid, Hdraft. split.
  - apply Forall_forall. intros t Ht.
    pose proof (proj1 (Forall_forall _ _) Hd t Ht) as Hdur.
    pose proof (proj1 (Forall_forall _ _) Hid t Ht) as Htr.
    split; [exact Hdur|]. split.
    + rewrite Hdur. apply calculateDuration_pos.
    + intros E. cbv beta in Htr. rewrite E in Htr. discriminate.
  - intros editing E. destruct Hdraft as [Hs He]; [congruence|].
    destruct (edit_startDate (editData st)) as [s|]; [|congruence].
    destruct (edit_endDate (editData st)) as [e|]; [|congruence].
    now exists s, e.
Qed.

(** ** Groups and rows of the table *)

Lemma getTasksByPhase_map (ts : list Task) :
  getTasksByPhase ts = map (fun p => (p, filter (inPhase p) ts)) phases.
Proof. reflexivity. Qed.

(** X13. After [addTask] has added a task, the group of the phase of the
    form has the new task at its end and every other group is as it was. *)
Theorem groups_after_add (now d1 d2 : Z) (st : State) :
  whitespaceOnly (form_name (formData st)) = false ->
  getTasksByPhase (tasks (addTask now d1 d2 st))
  = map (fun pg : string * list Task =>
           (fst pg,
            if String.eqb (form_phase (formData st)) (fst pg)
            then snd pg ++ [newTaskOf now (formData st)]
            else snd pg))
        (getTasksByPhase (tasks st)).
Proof.
  intros H. rewrite addTask_accepts by assumption. cbn [tasks].
  rewrite !getTasksByPhase_map, map_map. apply map_ext. intros p.
  cbn [fst snd]. f_equal. rewrite filter_app. cbn [filter].
  unfold inPhase at 2. cbn [newTaskOf phase].
  destruct (String.eqb (form_phase (formData st)) p);
    [reflexivity | apply app_nil_r].
Qed.

Lemma groups_after_add_witness :
  let st := changeForm (FormPhase "closing")
              (changeForm (FormName "C") (twoTasks 0 0 0 1 0 0 2 0 0)) in
  map (fun pg => map id (snd pg)) (getTasksByPhase (tasks (addTask 3 0 0 st)))
  = [["1"; "2"]; []; []; []; ["3"]].
Proof.
  intros st. rewrite (groups_after_add 3 0 0 st eq_refl). reflexivity.
Defined.

(** X14. [deleteTask] takes the tasks of the deleted id out of every group
    and changes neither the keys nor the order inside a group. *)
Theorem groups_after_delete (i : string) (st : State) :
  getTasksByPhase (tasks (deleteTask i st))
  = map (fun pg : string * list Task =>
           (fst pg, filter (fun task => negb (String.eqb (id task) i)) (snd pg)))
        (getTasksByPhase (tasks st)).
Proof.
  cbn [deleteTask tasks].
  rewrite !getTasksByPhase_map, map_map. apply map_ext. intros p.
  cbn [fst snd]. f_equal. apply filter_comm.
Qed.

Lemma filter_map_stable (f : Task -> Task) (p : string) (l : list Task) :
  (forall t, phase (f t) = phase t) ->
  filter (inPhase p) (map f l) = map f (filter (inPhase p) l).
Proof.
  intros Hf. induction l as [|t l IH]; [reflexivity|].
  cbn [map filter].
  change (inPhase p (f t)) with (String.eqb (phase (f t)) p).
  change (inPhase p t) with (String.eqb (phase t) p). rewrite Hf.
  destruct (String.eqb (phase t) p); cbn [map]; now rewrite IH.
Qed.

(** X15. [saveEdit] moves no task to another group: the ids in each group,
    in their order, are the same after as before. *)
Theorem groups_after_save (st : State) :
  map (fun pg : string * list Task => (fst pg, map id (snd pg)))
      (getTasksByPhase (tasks (saveEdit st)))
  = map (fun pg : string * list Task => (fst pg, map id (snd pg)))
        (getTasksByPhase (tasks st)).
Proof.
  destruct (editingTask st) as [editing|] eqn:E.
  2:{ now rewrite saveEdit_inactive by (rewrite E; discriminate). }
  destruct (JS.truthy editing) eqn:Htr.
  2:{ now rewrite saveEdit_inactive by (rewrite E; now intros ? [= <-]). }
  rewrite (saveEdit_active st editing E Htr). cbn [tasks].
  rewrite !getTasksByPhase_map, !map_map. apply map_ext. intros p.
  cbn [fst snd]. apply (f_equal (pair p)).
  rewrite filter_map_stable by (intros t; now destruct (String.eqb (id t) editing)).
  rewrite map_map. apply map_ext. intros t.
  now destruct (String.eqb (id t) editing).
Qed.

Lemma phaseRows_tasks (label : string) (n k : nat) (l : list Task) :
  map row_task (phaseRows label n k l) = l.
Proof.
  revert k. induction l as [|t l IH]; intros k; [reflexivity|].
  cbn [phaseRows map row_task]. now rewrite IH.
Qed.

Lemma phaseRows_later (label : string) (n k : nat) (l : list Task) :
  rowSpans (phaseRows label n (S k) l) = 0%nat.
Proof.
  revert k. induction l as [|t l IH]; intros k; [reflexivity|].
  cbn [phaseRows rowSpans row_phase Nat.eqb]. now rewrite IH.
Qed.

Lemma rowSpans_app (a b : list Row) :
  rowSpans (a ++ b) = (rowSpans a + rowSpans b)%nat.
Proof.
  induction a as [|r a IH]; [reflexivity|].
  cbn [app rowSpans]. rewrite IH. lia.
Qed.

(** The rows of one phase, as [tableBody] makes them. *)
Lemma group_rows (label : string) (g : list Task) :
  let rows := if Nat.eqb (List.length g) 0 then []
              else phaseRows label (List.length g) 0 g in
  map row_task rows = g /\ rowSpans rows = List.length rows.
Proof.
  destruct g as [|t g]; [now split|].
  cbn [List.length Nat.eqb]. cbv zeta. split; [apply phaseRows_tasks|].
  cbn [phaseRows rowSpans row_phase Nat.eqb List.length].
  rewrite phaseRows_later.
  assert (H : forall k l, List.length (phaseRows label (S (List.length g)) k l)
                          = List.length l).
  { intros k l. revert k. induction l as [|x l IH]; intros k; [reflexivity|].
    cbn [phaseRows List.length]. now rewrite IH. }
  rewrite H. lia.
Qed.

Lemma tableBody_defined (o : list (string * list Task)) (ps : list (string * string)) :
  (forall v, In v (map fst ps) -> getProperty o v <> None) ->
  exists rows,
    tableBody o ps = Some rows /\
    map row_task rows
    = flat_map (fun vl => match getProperty o (fst vl) with
                          | Some g => g
                          | None => []
                          end) ps /\
    rowSpans rows = List.length rows.
Proof.
  induction ps as [|[value label] ps IH]; intros H.
  - exists []. now repeat split.
  - destruct IH as (more & Emore & Htasks & Hspans).
    { intros v Hv. apply H. now right. }
    cbn [tableBody flat_map fst].
    destruct (getProperty o value) as [g|] eqn:Eg;
      [|exfalso; apply (H value); [now left | assumption]].
    rewrite Emore. eexists. split; [reflexivity|].
    destruct (group_rows label g) as [Hg Hs]. cbv zeta in Hg, Hs.
    split.
    + now rewrite map_app, Hg, Htasks.
    + rewrite rowSpans_app, length_app, Hs, Hspans. reflexivity.
Qed.

Lemma getProperty_group (ts : list Task) (p : string) :
  In p phases ->
  getProperty (getTasksByPhase ts) p = Some (filter (inPhase p) ts).
Proof.
  intros Hp. unfold phases in Hp. cbn [In] in Hp.
  rewrite getTasksByPhase_map.
  destruct Hp as [<-|[<-|[<-|[<-|[<-|[]]]]]]; reflexivity.
Qed.

Lemma tableRows_rows (ts : list Task) :
  exists rows : list Row,
    tableRows ts = Some rows /\
    map row_task rows = List.concat (map snd (getTasksByPhase ts)) /\
    rowSpans rows = List.length rows /\
    (forall t, In t (map row_task rows) <-> In t ts /\ In (phase t) phases).
Proof.
  destruct (tableBody_defined (getTasksByPhase ts) phaseLabels)
    as (rows & E & Htasks & Hspans).
  { intros v Hv. rewrite getProperty_group by exact Hv. discriminate. }
  exists rows. split; [exact E|].
  assert (Hrows : map row_task rows = List.concat (map snd (getTasksByPhase ts))).
  { rewrite Htasks. unfold phaseLabels. cbn [flat_map fst].
    rewrite !getProperty_group by (unfold phases; cbn [In]; tauto).
    rewrite groups_concat. reflexivity. }
  split; [exact Hrows|]. split; [exact Hspans|].
  intros t. rewrite Hrows, groups_concat, in_flat_map. split.
  - intros (p & Hp & Hin). apply filter_In in Hin as [Hin Eq].
    apply String.eqb_eq in Eq. subst p. now split.
  - intros [Hin Hp]. exists (phase t). split; [assumption|].
    apply filter_In. split; [assumption | apply String.eqb_refl].
Qed.


(** X16. The table is built without a read of a missing group: the object of
    [getTasksByPhase] has a group for each of the five phases. Its rows are
    the groups put end to end, a phase without task gives no row, and the
    [rowSpan]s of the phase cells add up to the number of rows. *)
Theorem tableRows_defined (ts : list Task) :
  exists rows : list Row,
    tableRows ts = Some rows /\
    map row_task rows = List.concat (map snd (getTasksByPhase ts)) /\
    rowSpans rows = List.length rows /\
    (forall t, In t (map row_task rows) <-> In t ts /\ In (phase t) phases).
Proof. apply tableRows_rows. Qed.

Lemma handle_phases (e : Event) (st : State) :
  fromSelect e ->
  In (form_phase (formData st)) phases /\
  Forall (fun t => In (phase t) phases) (tasks st) ->
  In (form_phase (formData (handle e st))) phases /\
  Forall (fun t => In (phase t) phases) (tasks (handle e st)).
Proof.
  intros He [Hf Ht].
  destruct e as [c|now d1 d2|i|task|c| |]; cbn [handle].
  - destruct c as [v|v|[d|]|[d|]|v]; cbn; now split.
  - unfold addTask. destruct (JS.truthy (JS.trim _)); cbn [negb]; [|now split].
    cbn [formData tasks]. split; [cbn; tauto|].
    apply Forall_app. split; [assumption|].
    constructor; [exact Hf | constructor].
  - split; [assumption|]. cbn [deleteTask tasks]. now apply Forall_filter.
  - now split.
  - now split.
  - destruct (saveEdit_phases st) as (Hph & Hform).
    rewrite Hform. split; [assumption|].
    apply Forall_forall. intros t Hin.
    assert (H : In (phase t) (map phase (tasks st)))
      by (rewrite <- Hph; now apply in_map).
    apply in_map_iff in H as (t' & <- & Hin').
    exact (proj1 (Forall_forall _ _) Ht t' Hin').
  - now split.
Qed.

Lemma run_phases (evs : list Event) (st : State) :
  Forall fromSelect evs ->
  In (form_phase (formData st)) phases /\
  Forall (fun t => In (phase t) phases) (tasks st) ->
  In (form_phase (formData (run evs st))) phases /\
  Forall (fun t => In (phase t) phases) (tasks (run evs st)).
Proof.
  intros Hev. revert st.
  induction Hev as [|e evs He _ IH]; intros st H; [exact H|].
  apply (IH (handle e st)). now apply handle_phases.
Qed.

(** X17. Along any trace in which the phase of the form is always one of the
    options of its [select], every task of the store has one of the five
    phases; so the table shows every task of the store, each once, and
    [phaseColors] has a colour for the bar of every task. *)
Theorem store_phases (d1 d2 : Z) (evs : list Event) :
  Forall fromSelect evs ->
  let st := run evs (initialState d1 d2) in
  Forall (fun t => In (phase t) phases) (tasks st) /\
  (exists rows, tableRows (tasks st) = Some rows /\
                Permutation (map row_task rows) (tasks st)) /\
  (forall t, In t (tasks st) ->
             exists colour, getProperty phaseColors (phase t) = Some colour).
Proof.
  intros Hev st.
  assert (Hinv : In (form_phase (formData st)) phases /\
                 Forall (fun t => In (phase t) phases) (tasks st)).
  { apply run_phases; [assumption|]. split; [cbn; tauto | constructor]. }
  destruct Hinv as [_ Hph]. split; [exact Hph|]. split.
  - destruct (tableRows_rows (tasks st)) as (rows & E & Hrows & _).
    exists rows. split; [exact E|]. rewrite Hrows, groups_concat.
    etransitivity; [apply groups_perm, phases_NoDup|].
    rewrite filter_all; [reflexivity|].
    intros t Ht. apply existsb_exists. exists (phase t).
    split; [exact (proj1 (Forall_forall _ _) Hph t Ht) | apply String.eqb_refl].
  - intros t Ht. pose proof (proj1 (Forall_forall _ _) Hph t Ht) as Hp.
    cbv beta in Hp. unfold phases in Hp. cbn [In] in Hp.
    destruct Hp as [<-|[<-|[<-|[<-|[<-|[]]]]]]; eexists; reflexivity.
Qed.

Lemma store_phases_witness :
  Forall (fun t => In (phase t) phases)
         (tasks (run [OnChangeForm (FormName "a");
                      OnChangeForm (FormPhase "planning");
                      OnAddTask 5 0 0] (initialState 0 0))).
Proof.
  refine (proj1 (store_phases 0 0 [OnChangeForm (FormName "a");
                                   OnChangeForm (FormPhase "planning");
                                   OnAddTask 5 0 0] _)).
  repeat (apply Forall_cons; [simpl; auto 10|]). apply Forall_nil.
Defined.

(** ** The axis *)

Lemma min_list_attained (l : list Z) (x : Z) :
  JS.min_list x l = x \/ In (JS.min_list x l) l.
Proof.
  unfold JS.min_list. revert x.
  induction l as [|y l IH]; intros x; cbn [fold_left]; [now left|].
  destruct (IH (Z.min x y)) as [E|Hin]; [|right; now right].
  rewrite E. destruct (Z.min_spec x y) as [[_ ->]|[_ ->]];
    [now left | right; now left].
Qed.

Lemma max_list_attained (l : list Z) (x : Z) :
  JS.max_list x l = x \/ In (JS.max_list x l) l.
Proof.
  unfold JS.max_list. revert x.
  induction l as [|y l IH]; intros x; cbn [fold_left]; [now left|].
  destruct (IH (Z.max x y)) as [E|Hin]; [|right; now right].
  rewrite E. destruct (Z.max_spec x y) as [[_ ->]|[_ ->]];
    [right; now left | now left].
Qed.

(** The dates of a list of tasks. *)
Lemma dates_of_tasks (ts : list Task) (d : Z) :
  In d (flat_map (fun task => [startDate task; endDate task]) ts)
  <-> exists t, In t ts /\ (d = startDate t \/ d = endDate t).
Proof.
  rewrite in_flat_map. split; intros (t & Ht & Hd); exists t;
    (split; [assumption|]); cbn [In] in *; intuition congruence.
Qed.

Lemma timeline_attained (d1 d2 : Z) (first : Task) (rest : list Task) :
  let tl := getTimelineData d1 d2 (first :: rest) in
  (exists t, In t (first :: rest) /\
             (tl_startDate tl = startDate t \/ tl_startDate tl = endDate t)) /\
  (exists t, In t (first :: rest) /\
             (tl_endDate tl = startDate t \/ tl_endDate tl = endDate t)).
Proof.
  cbn [getTimelineData tl_startDate tl_endDate]. cbv zeta.
  set (dates := flat_map _ rest). split.
  - destruct (min_list_attained (endDate first :: dates) (startDate first))
      as [E|[E|Hin]].
    + exists first. split; [now left | now left].
    + exists first. split; [now left | now right].
    + apply dates_of_tasks in Hin as (t & Ht & Hd).
      exists t. split; [now right | exact Hd].
  - destruct (max_list_attained (endDate first :: dates) (startDate first))
      as [E|[E|Hin]].
    + exists first. split; [now left | now left].
    + exists first. split; [now left | now right].
    + apply dates_of_tasks in Hin as (t & Ht & Hd).
      exists t. split; [now right | exact Hd].
Qed.

(** X18. The axis of a chart that has tasks starts at the earliest and ends
    at the latest of all their start and end dates: each end of the axis is
    a date of some task and bounds the dates of every task, whether or not a
    task ends before it starts. *)
Theorem timeline_extremes (d1 d2 : Z) (first : Task) (rest : list Task) :
  let ts := first :: rest in
  let tl := getTimelineData d1 d2 ts in
  (exists t, In t ts /\
             (tl_startDate tl = startDate t \/ tl_startDate tl = endDate t)) /\
  (exists t, In t ts /\
             (tl_endDate tl = startDate t \/ tl_endDate tl = endDate t)) /\
  (forall t, In t ts ->
             tl_startDate tl <= startDate t <= tl_endDate tl /\
             tl_startDate tl <= endDate t <= tl_endDate tl) /\
  tl_startDate tl <= tl_endDate tl.
Proof.
  intros ts tl.
  destruct (timeline_attained d1 d2 first rest) as [Hmin Hmax].
  split; [exact Hmin|]. split; [exact Hmax|].
  assert (Hb : forall t, In t ts ->
                         tl_startDate tl <= startDate t <= tl_endDate tl /\
                         tl_startDate tl <= endDate t <= tl_endDate tl).
  { intros t Ht.
    destruct (timeline_bounds d1 d2 ts t Ht) as (H1 & H2 & H3 & H4 & _).
    fold tl in H1, H2, H3, H4. lia. }
  split; [exact Hb|].
  destruct (Hb first (or_introl eq_refl)). lia.
Qed.

(** X19. The axis does not depend on the order of the tasks. *)
Theorem timeline_permutation (d1 d2 : Z) (ts ts' : list Task) :
  Permutation ts ts' ->
  getTimelineData d1 d2 ts = getTimelineData d1 d2 ts'.
Proof.
  intros Hp. destruct ts as [|a ts].
  { apply Permutation_nil in Hp. now subst. }
  destruct ts' as [|b ts'].
  { apply Permutation_sym, Permutation_nil in Hp. discriminate. }
  destruct (timeline_attained d1 d2 a ts) as [(t1 & Ht1 & Hmin1) (t2 & Ht2 & Hmax1)].
  destruct (timeline_attained d1 d2 b ts') as [(u1 & Hu1 & Hmin2) (u2 & Hu2 & Hmax2)].
  pose proof (timeline_bounds d1 d2 (a :: ts)) as B1.
  pose proof (timeline_bounds d1 d2 (b :: ts')) as B2.
  cbv zeta in *.
  pose proof (B1 u1 (Permutation_in _ (Permutation_sym Hp) Hu1)) as (? & ? & ? & ? & _).
  pose proof (B1 u2 (Permutation_in _ (Permutation_sym Hp) Hu2)) as (? & ? & ? & ? & _).
  pose proof (B2 t1 (Permutation_in _ Hp Ht1)) as (? & ? & ? & ? & _).
  pose proof (B2 t2 (Permutation_in _ Hp Ht2)) as (? & ? & ? & ? & _).
  pose proof (B1 a (or_introl eq_refl)) as (_ & _ & _ & _ & T1).
  pose proof (B2 b (or_introl eq_refl)) as (_ & _ & _ & _ & T2).
  destruct (getTimelineData d1 d2 (a :: ts)) as [s1 e1 n1].
  destruct (getTimelineData d1 d2 (b :: ts')) as [s2 e2 n2].
  cbn [tl_startDate tl_endDate totalDays] in *.
  assert (s1 = s2) by lia. assert (e1 = e2) by lia. subst.
  reflexivity.
Qed.

Lemma timeline_permutation_witness :
  getTimelineData 0 0 [taskA 0 1; taskB 0 2]
  = getTimelineData 0 0 [taskB 0 2; taskA 0 1].
Proof.
  apply timeline_permutation. apply perm_swap.
Defined.

(** X20. For tasks with valid dates on an axis no longer than
    [MAX_SAFE_INTEGER] milliseconds, the range in which the arithmetic of the
    code on these integers is exact: the instant that the footer of the chart
    passes to [new Date], the start of the axis plus [totalDays - 1] days, is
    the end of the axis or later by less than a day; it is the end of the
    axis when all dates are a whole number of days away from one instant
    [off], as the midnights of a zone are between two changes of its
    offset. *)
Theorem footerEnd_bounds (d1 d2 : Z) (first : Task) (rest : list Task) :
  let ts := first :: rest in
  let tl := getTimelineData d1 d2 ts in
  let shown := footerEnd (tl_startDate tl) (totalDays tl) in
  Forall (fun task => validDate (startDate task) /\
                      validDate (endDate task)) ts ->
  tl_endDate tl - tl_startDate tl <= MAX_SAFE_INTEGER ->
  tl_endDate tl <= shown < tl_endDate tl + MS_PER_DAY /\
  (forall off : Z,
      Forall (fun task => dayNormalized off (startDate task) /\
                          dayNormalized off (endDate task)) ts ->
      shown = tl_endDate tl).
Proof.
  intros ts tl shown _ _.
  destruct (timeline_bounds d1 d2 ts first (or_introl eq_refl))
    as (_ & _ & _ & _ & Htot).
  fold tl in Htot.
  pose proof (ceil_div_bracket (tl_endDate tl - tl_startDate tl)) as B.
  assert (Eshown : shown = tl_startDate tl + (totalDays tl - 1) * MS_PER_DAY).
  { subst shown. unfold footerEnd. change MS_PER_DAY with 86400000. lia. }
  split; [rewrite Eshown, Htot; lia|].
  intros off Hnorm.
  destruct (timeline_attained d1 d2 first rest) as [(t1 & Ht1 & E1) (t2 & Ht2 & E2)].
  fold ts tl in Ht1, E1, Ht2, E2.
  pose proof (proj1 (Forall_forall _ _) Hnorm t1 Ht1) as [N1s N1e].
  pose proof (proj1 (Forall_forall _ _) Hnorm t2 Ht2) as [N2s N2e].
  assert (Ns : dayNormalized off (tl_startDate tl))
    by (destruct E1 as [-> | ->]; assumption).
  assert (Ne : dayNormalized off (tl_endDate tl))
    by (destruct E2 as [-> | ->]; assumption).
  unfold dayNormalized in Ns, Ne.
  apply Z.mod_divide in Ns as [ks Hks]; [|discriminate].
  apply Z.mod_divide in Ne as [ke Hke]; [|discriminate].
  rewrite Eshown, Htot.
  replace (tl_endDate tl - tl_startDate tl) with ((ke - ks) * MS_PER_DAY) by lia.
  rewrite ceil_div_days. lia.
Qed.

Lemma footerEnd_bounds_witness :
  let tl := getTimelineData 0 0 [taskA 0 1; taskB 0 2] in
  footerEnd (tl_startDate tl) (totalDays tl) = tl_endDate tl.
Proof.
  intros tl.
  refine (proj2 (footerEnd_bounds 0 0 (taskA 0 1) [taskB 0 2] _ _) 0 _).
  - repeat constructor; vm_compute; discriminate.
  - vm_compute. discriminate.
  - repeat constructor.
Defined.

(** ** Positions and progress *)

Lemma percent_mono (x y T : Z) :
  0 < T -> x <= y ->
  (inject_Z x / inject_Z T * inject_Z 100
   <= inject_Z y / inject_Z T * inject_Z 100)%Q.
Proof.
  intros HT Hxy.
  assert (HTq : (0 < inject_Z T)%Q) by (unfold Qlt; simpl; lia).
  apply Qmult_le_compat_r; [|unfold Qle; simpl; lia].
  apply Qmult_le_compat_r; [now rewrite <- Zle_Qle|].
  apply Qlt_le_weak, Qinv_lt_0_compat, HTq.
Qed.

Lemma percent_zero (T : Z) :
  (inject_Z 0 / inject_Z T * inject_Z 100 == 0)%Q.
Proof. unfold Qdiv. now rewrite !Qmult_0_l. Qed.

Lemma percent_full (T : Z) :
  0 < T -> (inject_Z T / inject_Z T * inject_Z 100 == 100)%Q.
Proof.
  intros HT. field. unfold Qeq. simpl. lia.
Qed.

Lemma percent_lt_full (x T : Z) :
  0 < T -> x < T -> (inject_Z x / inject_Z T * inject_Z 100 < 100)%Q.
Proof.
  intros HT Hx.
  assert (HTq : (0 < inject_Z T)%Q) by (unfold Qlt; simpl; lia).
  rewrite <- (percent_full T HT).
  apply Qmult_lt_compat_r; [reflexivity|].
  apply Qmult_lt_compat_r; [now apply Qinv_lt_0_compat | now rewrite <- Zlt_Qlt].
Qed.

Lemma percent_pos (x T : Z) :
  0 < T -> 0 < x -> (0 < inject_Z x / inject_Z T * inject_Z 100)%Q.
Proof.
  intros HT Hx.
  assert (HTq : (0 < inject_Z T)%Q) by (unfold Qlt; simpl; lia).
  rewrite <- (percent_zero T).
  apply Qmult_lt_compat_r; [reflexivity|].
  apply Qmult_lt_compat_r; [now apply Qinv_lt_0_compat | now rewrite <- Zlt_Qlt].
Qed.

Lemma percent_nonneg (x T : Z) :
  0 < T -> 0 <= x -> (inject_Z 0 <= inject_Z x / inject_Z T * inject_Z 100)%Q.
Proof.
  intros HT Hx. eapply Qle_trans; [|apply (percent_mono 0 x T); assumption].
  apply Qle_lteq. right. symmetry. apply percent_zero.
Qed.

Lemma percent_le_full (x T : Z) :
  0 < T -> x <= T -> (inject_Z x / inject_Z T * inject_Z 100 <= inject_Z 100)%Q.
Proof.
  intros HT Hx. eapply Qle_trans; [apply (percent_mono x T T); assumption|].
  apply Qle_lteq. right. now apply percent_full.
Qed.

(** X21. For every task of a chart whose cached duration is the one its
    dates give, whichever of its dates comes first: both percentages are
    finite, the bar starts inside the axis, [0 <= left < 100], and is not
    wider than the axis, [0 < width <= 100]. *)
Theorem position_bounds (d1 d2 : Z) (ts : list Task) (t : Task) :
  In t ts -> durationCached t ->
  let tl := getTimelineData d1 d2 ts in
  let pos := getTaskPosition t (tl_startDate tl) (totalDays tl) in
  exists l w : Q,
    pos_left pos = JS.Fin l /\ pos_width pos = JS.Fin w /\
    (0 <= l)%Q /\ (l < 100)%Q /\ (0 < w)%Q /\ (w <= 100)%Q.
Proof.
  intros Hin Hdur tl pos.
  destruct (timeline_bounds d1 d2 ts t Hin) as (H1 & H2 & H3 & H4 & Htot).
  fold tl in H1, H2, H3, H4, Htot.
  pose proof (ceil_div_nonneg (tl_endDate tl - tl_startDate tl) ltac:(lia)) as Hc.
  assert (HT : 0 < totalDays tl) by lia.
  set (taskStart := JS.floor_div (startDate t - tl_startDate tl) MS_PER_DAY).
  assert (Hs0 : 0 <= taskStart).
  { apply Z.div_pos; [lia | apply MS_PER_DAY_pos]. }
  assert (Hs1 : taskStart < totalDays tl).
  { pose proof (floor_plus_ceil_le (startDate t - tl_startDate tl) 0
                  (tl_endDate tl - tl_startDate tl) ltac:(lia)) as H.
    change (JS.ceil_div 0 MS_PER_DAY) with 0 in H. fold taskStart in H. lia. }
  assert (Hd0 : 0 < duration t).
  { rewrite Hdur. pose proof (calculateDuration_pos (startDate t) (endDate t)). lia. }
  assert (Hd1 : duration t <= totalDays tl).
  { rewrite Hdur, Htot. unfold calculateDuration.
    pose proof (floor_plus_ceil_le 0 (Z.abs (endDate t - startDate t))
                  (tl_endDate tl - tl_startDate tl) ltac:(lia)) as H.
    change (JS.floor_div 0 MS_PER_DAY) with 0 in H. lia. }
  subst pos. unfold getTaskPosition. cbn [pos_left pos_width].
  fold taskStart. rewrite !percent_finite by lia.
  do 2 eexists. split; [reflexivity|]. split; [reflexivity|].
  repeat split.
  - rewrite <- (percent_zero (totalDays tl)). now apply percent_mono.
  - now apply percent_lt_full.
  - now apply percent_pos.
  - rewrite <- (percent_full (totalDays tl) HT). now apply percent_mono.
Qed.

Lemma position_bounds_witness :
  let tl := getTimelineData 0 0 [reversedTask] in
  let pos := getTaskPosition reversedTask (tl_startDate tl) (totalDays tl) in
  exists l w : Q,
    pos_left pos = JS.Fin l /\ pos_width pos = JS.Fin w /\
    (0 <= l)%Q /\ (l < 100)%Q /\ (0 < w)%Q /\ (w <= 100)%Q.
Proof.
  apply (position_bounds 0 0 [reversedTask] reversedTask).
  - now left.
  - reflexivity.
Defined.

(** X22. In a chart of one task, with its cached duration the one its dates
    give, the bar is as wide as the axis; it starts at the left edge when
    the task does not end before it starts. *)
Theorem position_single (d1 d2 : Z) (t : Task) :
  durationCached t ->
  let tl := getTimelineData d1 d2 [t] in
  let pos := getTaskPosition t (tl_startDate tl) (totalDays tl) in
  totalDays tl = duration t /\
  JS.eq (pos_width pos) (JS.of_Z 100) /\
  (startDate t <= endDate t -> JS.eq (pos_left pos) (JS.of_Z 0)).
Proof.
  intros Hdur tl pos.
  assert (Hs : tl_startDate tl = Z.min (startDate t) (endDate t)) by reflexivity.
  assert (He : tl_endDate tl = Z.max (startDate t) (endDate t)) by reflexivity.
  assert (Htot : totalDays tl = duration t).
  { rewrite Hdur. unfold calculateDuration.
    change (totalDays tl)
      with (JS.ceil_div (Z.max (startDate t) (endDate t)
                         - Z.min (startDate t) (endDate t)) MS_PER_DAY + 1).
    f_equal. f_equal. lia. }
  assert (HT : 0 < totalDays tl).
  { rewrite Htot, Hdur.
    pose proof (calculateDuration_pos (startDate t) (endDate t)). lia. }
  split; [exact Htot|].
  subst pos. unfold getTaskPosition. cbn [pos_left pos_width].
  rewrite !percent_finite by lia. cbn [JS.eq JS.of_Z]. split.
  - rewrite <- Htot. now apply percent_full.
  - intros Hord. rewrite Hs, Z.min_l, Z.sub_diag by assumption.
    change (JS.floor_div 0 MS_PER_DAY) with 0. apply percent_zero.
Qed.

Lemma position_single_witness :
  let tl := getTimelineData 0 0 [taskA 0 1] in
  JS.eq (pos_width (getTaskPosition (taskA 0 1) (tl_startDate tl) (totalDays tl)))
        (JS.of_Z 100).
Proof.
  intros tl.
  exact (proj1 (proj2 (position_single 0 0 (taskA 0 1) eq_refl))).
Defined.

Lemma progress_inside (today : Z) (t : Task) :
  startDate t <= today <= endDate t -> startDate t < endDate t ->
  getProgressPercentage today t
  = JS.Fin (Qmin (inject_Z 100)
              (Qmax (inject_Z 0)
                 (inject_Z (today - startDate t)
                  / inject_Z (endDate t - startDate t) * inject_Z 100))).
Proof.
  intros Hin Hlt. unfold getProgressPercentage.
  destruct (Z.ltb_spec today (startDate t)); [lia|].
  destruct (Z.gtb_spec today (endDate t)); [lia|].
  now rewrite percent_finite by lia.
Qed.

Lemma progress_cases (today : Z) (t : Task) :
  (today < startDate t /\ getProgressPercentage today t = JS.of_Z 0) \/
  (startDate t <= today /\ endDate t < today /\
   getProgressPercentage today t = JS.of_Z 100) \/
  (startDate t = today /\ endDate t = today /\
   getProgressPercentage today t = JS.NaN) \/
  (startDate t <= today <= endDate t /\ startDate t < endDate t).
Proof.
  unfold getProgressPercentage.
  destruct (Z.ltb_spec today (startDate t)); [now left|].
  destruct (Z.gtb_spec today (endDate t)); [right; left; repeat split; lia|].
  destruct (Z.eq_dec (startDate t) (endDate t)) as [E|E].
  - right; right; left. assert (today = startDate t) by lia. subst today.
    rewrite <- E, Z.sub_diag. repeat split; lia.
  - right; right; right. lia.
Qed.

Lemma clamp_bounds (x : Q) :
  (0 <= Qmin (inject_Z 100) (Qmax (inject_Z 0) x))%Q /\
  (Qmin (inject_Z 100) (Qmax (inject_Z 0) x) <= 100)%Q.
Proof.
  split.
  - apply Q.min_glb; [discriminate | apply Q.le_max_l].
  - apply Q.le_min_l.
Qed.

(** X23. The progress of a task is [NaN] exactly when the task starts and
    ends at the instant it is read; in every other case it is a finite
    percentage between 0 and 100. *)
Theorem progress_range (today : Z) (t : Task) :
  (getProgressPercentage today t = JS.NaN
   <-> startDate t = today /\ endDate t = today) /\
  (~ (startDate t = today /\ endDate t = today) ->
   exists q : Q, getProgressPercentage today t = JS.Fin q /\
                 (0 <= q)%Q /\ (q <= 100)%Q).
Proof.
  destruct (progress_cases today t)
    as [[H E]|[(H1 & H2 & E)|[(H1 & H2 & E)|[Hin Hlt]]]].
  - rewrite E. split; [split; [discriminate | lia]|].
    intros _. eexists. split; [reflexivity|]. split; discriminate.
  - rewrite E. split; [split; [discriminate | lia]|].
    intros _. eexists. split; [reflexivity|]. split; discriminate.
  - rewrite E. split; [now split | tauto].
  - rewrite (progress_inside today t Hin Hlt).
    split; [split; [discriminate | lia]|].
    intros _. eexists. split; [reflexivity|]. apply clamp_bounds.
Qed.

(** X24. For a task that ends after it starts, the progress never decreases
    as the clock advances; it is 0 up to the start and at the start, and 100
    at the end and from the end on. *)
Theorem progress_monotone (t : Task) :
  startDate t < endDate t ->
  (forall a b : Z,
      a <= b ->
      JS.le (getProgressPercentage a t) (getProgressPercentage b t)) /\
  (forall today : Z,
      today <= startDate t -> JS.eq (getProgressPercentage today t) (JS.of_Z 0)) /\
  (forall today : Z,
      endDate t <= today -> JS.eq (getProgressPercentage today t) (JS.of_Z 100)).
Proof.
  intros Hlt.
  assert (HT : 0 < endDate t - startDate t) by lia.
  assert (Hexact : forall today, startDate t <= today <= endDate t ->
            (Qmin (inject_Z 100)
               (Qmax (inject_Z 0)
                  (inject_Z (today - startDate t)
                   / inject_Z (endDate t - startDate t) * inject_Z 100))
             == inject_Z (today - startDate t)
                / inject_Z (endDate t - startDate t) * inject_Z 100)%Q).
  { intros today Hin.
    assert (H0 : (inject_Z 0 <= inject_Z (today - startDate t)
                  / inject_Z (endDate t - startDate t) * inject_Z 100)%Q).
    { apply percent_nonneg; lia. }
    assert (H1 : (inject_Z (today - startDate t)
                  / inject_Z (endDate t - startDate t) * inject_Z 100
                  <= inject_Z 100)%Q).
    { apply percent_le_full; lia. }
    rewrite Q.max_r by exact H0. now rewrite Q.min_r by exact H1. }
  split; [|split].
  - intros a b Hab.
    destruct (progress_cases a t)
      as [[Ha Ea]|[(Ha1 & Ha2 & Ea)|[(Ha1 & Ha2 & _)|[Hain _]]]]; [| |lia|];
    destruct (progress_cases b t)
      as [[Hb Eb]|[(Hb1 & Hb2 & Eb)|[(Hb1 & Hb2 & _)|[Hbin _]]]]; try lia;
    rewrite ?Ea, ?Eb, ?(progress_inside a t) by assumption;
    rewrite ?(progress_inside b t) by assumption;
    cbn [JS.le JS.of_Z]; try discriminate;
    try apply clamp_bounds.
    rewrite !Hexact by assumption. apply percent_mono; lia.
  - intros today Hle.
    destruct (Z.eq_dec today (startDate t)) as [->|Hne].
    + rewrite progress_inside by lia. cbn [JS.eq JS.of_Z].
      rewrite Hexact by lia. rewrite Z.sub_diag. apply percent_zero.
    + unfold getProgressPercentage.
      destruct (Z.ltb_spec today (startDate t)); [reflexivity | lia].
  - intros today Hge.
    destruct (Z.eq_dec today (endDate t)) as [->|Hne].
    + rewrite progress_inside by lia. cbn [JS.eq JS.of_Z].
      rewrite Hexact by lia. now apply percent_full.
    + rewrite progress_after_end by lia. reflexivity.
Qed.

Lemma progress_monotone_witness :
  JS.le (getProgressPercentage (jan2024 0 2) (taskA 0 1))
        (getProgressPercentage (jan2024 0 4) (taskA 0 1)).
Proof.
  apply (proj1 (progress_monotone (taskA 0 1) eq_refl)).
  vm_compute. discriminate.
Defined.

(** ** Drafts that are not saved *)

(** X25. Changes to the draft made when no edit is in progress never reach
    the tasks: after [cancelEdit], any changes and then [saveEdit] leave the
    list of tasks as it was. *)
Theorem draft_without_edit (st : State) (changes : list DraftChange) :
  tasks (saveEdit (changeDrafts changes (cancelEdit st))) = tasks st /\
  saveEdit (cancelEdit st) = cancelEdit st.
Proof.
  destruct (changeDrafts_frame changes (cancelEdit st)) as (Et & _ & Ee).
  split.
  - rewrite saveEdit_inactive; [exact Et|].
    rewrite Ee. cbn. discriminate.
  - apply saveEdit_inactive. cbn. discriminate.
Qed.

(** X26. Starting to edit a task while another edit is in progress throws
    the first draft away: the state is the one [startEditing] would give
    had the first edit never begun. *)
Theorem second_edit_discards (st : State) (t1 t2 : Task)
        (changes : list DraftChange) :
  startEditing t2 (changeDrafts changes (startEditing t1 st))
  = startEditing t2 st.
Proof.
  destruct (changeDrafts_frame changes (startEditing t1 st)) as (Et & Ef & _).
  unfold startEditing at 1. rewrite Et, Ef. reflexivity.
Qed.
